(** * pubsublib-python: the AWS publish/subscribe adapter and its codec

    A shallow embedding of

      - [src/pubsublib/common/codec.py], the decoding side   (module [Codec]),
      - [src/pubsublib/aws/main.py]                          (module [Pubsublib]),
      - [src/pubsublib_python_orangehealth/aws/main.py]      (module [Legacy]),

    followed by the properties of the publisher, of the consumer loop and of
    the codec.

    The adapter is effectful code: it calls the SNS/SQS transport, the cache
    adapter, [uuid.uuid4], the logger, the helper module and the handler of
    the caller.  Every such call is recorded as an [Event]; a computation
    reads the history of events so far (the collaborators may answer
    differently as time goes by) and yields an outcome (a value or a raised
    exception) together with the events it added. *)

From Stdlib Require Import ZArith List String Ascii Bool Lia.
From Stdlib.Strings Require Import Byte.
From stdpp Require Import base gmap strings list.
Import ListNotations.

Set Warnings "-register-all".

Local Open Scope Z_scope.
Local Open Scope string_scope.
Local Open Scope list_scope.

(** ** Python values *)

(** The value of [uuid.uuid4()]: a 128-bit number. *)
Definition UUID : Type := N.

(** The Python values that flow through the adapter: attribute values
    ([str], [bytes], and whatever else a caller puts into the dict), the
    [UUID] object stored under ["redis_key"], the wire form of an attribute
    (a dict) and the result of a handler. *)
Inductive PyVal : Type :=
| VNone
| VBool (b : bool)
| VInt (z : Z)
| VStr (s : string)
| VBytes (b : list byte)
| VUuid (u : UUID)
| VDict (items : list (string * PyVal)).

(** [bool(v)], as the statement [if v:] evaluates it. *)
Definition truthy (v : PyVal) : bool :=
  match v with
  | VNone => false
  | VBool b => b
  | VInt z => negb (Z.eqb z 0)
  | VStr s => negb (String.eqb s "")
  | VBytes b => match b with [] => false | _ => true end
  | VUuid _ => true
  | VDict items => match items with [] => false | _ => true end
  end.

(** A [dict] with string keys: the attribute mapping of a message, and the
    mapping [bind_attributes] makes of it. *)
Abbreviation Dict := (gmap string PyVal).

(** ** Exceptions and outcomes *)

Inductive exn : Type :=
| ClientError (operation : string)     (* botocore.exceptions.ClientError *)
| ValueError (msg : string)
| UnboundLocalError (name : string)
| PyException (cls msg : string).      (* an exception of any other class *)

Inductive Outcome (A : Type) : Type :=
| Return (a : A)
| Raise (e : exn).
Arguments Return {A} a.
Arguments Raise {A} e.

(** ** The transport's data *)

(** A received SQS message: the dict shown in the docstring of
    [poll_message_from_queue], with the keys the loop reads (['Body'],
    ['MD5OfBody'], ['ReceiptHandle']), which SQS always supplies. *)
Record Message : Type := {
  MessageId : string;
  ReceiptHandle : string;
  MD5OfBody : string;
  Body : string;
  MessageAttributes : Dict
}.

(** The response of [receive_message]; the key ['Messages'] is absent
    ([None]) when nothing was received. *)
Record ReceiveResponse : Type := {
  Messages : option (list Message)
}.

(** The keyword arguments of [sqs_client.receive_message]. *)
Record ReceiveArgs : Type := {
  QueueUrl : string;
  MaxNumberOfMessages : Z;
  VisibilityTimeout : Z;
  WaitTimeSeconds : Z;
  MessageAttributeNames : list string;
  AttributeNames : list string
}.

(** The arguments [poll_message_from_queue] passes to [receive_message]. *)
Definition receive_args
    (sqs_queue_url : string) (visibility_timeout wait_time_seconds : Z)
    (message_attribute_names : list string) (max_number_of_messages : Z)
    (attribute_names : list string) : ReceiveArgs :=
  {| QueueUrl := sqs_queue_url;
     MaxNumberOfMessages := max_number_of_messages;
     VisibilityTimeout := visibility_timeout;
     WaitTimeSeconds := wait_time_seconds;
     MessageAttributeNames := message_attribute_names;
     AttributeNames := attribute_names |}.

(** The keyword arguments of [sns_client.publish]: the standard call, and
    the FIFO call, which also passes [MessageGroupId] and
    [MessageDeduplicationId] ([None] is Python's [None]). *)
Inductive PublishArgs : Type :=
| StandardPublish (TopicArn Message : string) (MessageAttributes : Dict)
| FifoPublish (TopicArn Message : string)
              (MessageGroupId MessageDeduplicationId : option string)
              (MessageAttributes : Dict).

Definition publish_body (args : PublishArgs) : string :=
  match args with
  | StandardPublish _ m _ => m
  | FifoPublish _ m _ _ _ => m
  end.

Definition publish_topic (args : PublishArgs) : string :=
  match args with
  | StandardPublish t _ _ => t
  | FifoPublish t _ _ _ _ => t
  end.

(** The response of [sns_client.publish]; the code reads
    [response["MessageId"]]. *)
Record PublishResponse : Type := {
  ResponseMessageId : string
}.

(** ** Events and computations *)

Inductive Event : Type :=
| EvB64Decode (s : string) (res : Outcome (list byte))
| EvGunzip (data : list byte) (res : Outcome (list byte))
| EvUuid4 (key : UUID)
| EvSetItem (key : string) (value : PyVal)
| EvCacheSet (key : UUID) (value : string) (ttl : Z) (res : Outcome unit)
| EvValidate (attributes : Dict) (res : Outcome bool)
| EvBind (attributes : Dict) (res : Outcome Dict)
| EvSnsPublish (args : PublishArgs) (res : Outcome PublishResponse)
| EvReceive (args : ReceiveArgs) (res : Outcome ReceiveResponse)
| EvHandler (message : Message) (res : Outcome PyVal)
| EvDelete (queue_url receipt_handle : string) (res : Outcome unit)
| EvLogException (fmt arg : string)
| EvPrint (text : string).

Definition Trace : Type := list Event.

(** A computation: from the history so far to an outcome and the events
    added, oldest first. *)
Definition M (A : Type) : Type := Trace -> Outcome A * Trace.

Definition ret {A} (a : A) : M A := fun _ => (Return a, []).

Definition raise {A} (e : exn) : M A := fun _ => (Raise e, []).

Definition bind {A B} (m : M A) (k : A -> M B) : M B :=
  fun h =>
    match m h with
    | (Return a, es) => let (o, es') := k a (h ++ es) in (o, es ++ es')
    | (Raise e, es) => (Raise e, es)
    end.

Declare Scope py_scope.
Delimit Scope py_scope with py.
Notation "x <- c1 ;; c2" := (bind c1 (fun x => c2))
  (at level 100, c1 at next level, right associativity) : py_scope.
Notation "c1 ;; c2" := (bind c1 (fun _ => c2))
  (at level 100, c2 at level 200, right associativity) : py_scope.
Local Open Scope py_scope.

(** One call of a collaborator: the answer is the collaborator's, given the
    history, and the call is recorded with its answer. *)
Definition call {A} (oracle : Trace -> Outcome A) (ev : Outcome A -> Event) : M A :=
  fun h => let r := oracle h in (r, [ev r]).

Definition emit (e : Event) : M unit := fun _ => (Return tt, [e]).

(** Reading a local variable that may not have been assigned. *)
Definition read_local {A} (name : string) (v : option A) : M A :=
  match v with
  | Some a => ret a
  | None => raise (UnboundLocalError name)
  end.

(** [try: body / except ClientError: handler].  An exception of another
    class passes through. *)
Definition try_except_ClientError {A} (body : M A) (handler : exn -> M A) : M A :=
  fun h =>
    match body h with
    | (Raise (ClientError op), es) =>
        let (o, es') := handler (ClientError op) (h ++ es) in (o, es ++ es')
    | r => r
    end.

(** [try: body / except ClientError: handler / else: orelse].  The [else]
    suite runs when the body ends without an exception, and an exception it
    raises is not handled here. *)
Definition try_except_ClientError_else {A B}
    (body : M A) (handler : exn -> M B) (orelse : A -> M B) : M B :=
  fun h =>
    match body h with
    | (Return a, es) => let (o, es') := orelse a (h ++ es) in (o, es ++ es')
    | (Raise (ClientError op), es) =>
        let (o, es') := handler (ClientError op) (h ++ es) in (o, es ++ es')
    | (Raise e, es) => (Raise e, es)
    end.

(** ** The collaborators *)

(** What the adapter is given: the functions of the helper module
    ([aws/utils/helper.py], imported by both [main.py] files), the library
    functions of the codec, and the stateful collaborators (uuid generator,
    cache adapter, SNS and SQS clients), whose answers may depend on the
    history. *)
Record Env : Type := {
  validate_message_attributes : Dict -> Outcome bool;
  bind_attributes : Dict -> Outcome Dict;
  hashlib_md5_hexdigest : string -> string;
  base64_b64decode : string -> Outcome (list byte);
  gzip_read : list byte -> Outcome (list byte);
  uuid_uuid4 : Trace -> UUID;
  cache_adapter_set : Trace -> UUID -> string -> Z -> Outcome unit;
  sns_client_publish : Trace -> PublishArgs -> Outcome PublishResponse;
  sqs_client_receive_message : Trace -> ReceiveArgs -> Outcome ReceiveResponse;
  sqs_client_delete_message : Trace -> string -> string -> Outcome unit
}.

(** The handler a caller passes to [poll_message_from_queue]. *)
Definition Handler : Type := Trace -> Message -> Outcome PyVal.

(** ** The helper module *)

Module Helper.

Definition KB : Z := 1024.

(** The threshold of the offload: 200 KB. *)
Definition LARGE_MESSAGE_THRESHOLD : Z := 200 * KB.

(** The size of a body in bytes (a [string] here is a sequence of bytes). *)
Definition body_size (message : string) : Z := Z.of_nat (String.length message).

(** Modelled from the spec: [is_large_message] of [aws/utils/helper.py],
    which [main.py] imports and whose source is not available.  Spec 4.3:
    "isLarge(body): true when serialized body size exceeds 200 KB". *)
Definition is_large_message (message : string) : bool :=
  Z.ltb LARGE_MESSAGE_THRESHOLD (body_size message).

(** Modelled from the spec: [is_message_integrity_verified] of
    [aws/utils/helper.py], whose source is not available.  Spec 2 and 4.5:
    it "recomputes a checksum over a received body and compares to the
    transport-supplied checksum"; the checksum is the MD5 hex digest (the
    field is [MD5OfBody]), computed by [hashlib]. *)
Definition is_message_integrity_verified (env : Env) (body md5_of_body : string) : bool :=
  String.eqb (hashlib_md5_hexdigest env body) md5_of_body.

End Helper.

(** ** src/pubsublib/common/codec.py *)

Module Codec.
Section WithEnv.
Context (env : Env).

Definition gzip_decompress (data : list byte) : M (list byte) :=
  call (fun _ => gzip_read env data) (EvGunzip data).

Definition b64_decode (s : string) : M (list byte) :=
  call (fun _ => base64_b64decode env s) (EvB64Decode s).

Definition b64_decode_and_gunzip_if (b64s : string) (compressed : bool) : M (list byte) :=
  decoded <- b64_decode b64s ;;
  if compressed then gzip_decompress decoded
  else ret decoded.

End WithEnv.
End Codec.

(** ** The calls shared by both adapters *)

Section Calls.
Context (env : Env).

Definition uuid4 : M UUID :=
  fun h => let k := uuid_uuid4 env h in (Return k, [EvUuid4 k]).

(** [attributes[key] = value]: the caller's dict is changed in place, which
    the caller can see, and the adapter goes on with the changed dict. *)
Definition dict_setitem (attributes : Dict) (key : string) (value : PyVal) : M Dict :=
  fun _ => (Return (<[key := value]> attributes), [EvSetItem key value]).

Definition cache_set (key : UUID) (value : string) (ttl : Z) : M unit :=
  call (fun h => cache_adapter_set env h key value ttl) (EvCacheSet key value ttl).

Definition validate (attributes : Dict) : M bool :=
  call (fun _ => validate_message_attributes env attributes) (EvValidate attributes).

Definition bind_attrs (attributes : Dict) : M Dict :=
  call (fun _ => bind_attributes env attributes) (EvBind attributes).

Definition sns_publish (args : PublishArgs) : M PublishResponse :=
  call (fun h => sns_client_publish env h args) (EvSnsPublish args).

Definition sqs_receive_message (args : ReceiveArgs) : M ReceiveResponse :=
  call (fun h => sqs_client_receive_message env h args) (EvReceive args).

Definition sqs_delete_message (queue_url receipt_handle : string) : M unit :=
  call (fun h => sqs_client_delete_message env h queue_url receipt_handle)
       (EvDelete queue_url receipt_handle).

Definition call_handler (handler : Handler) (message : Message) : M PyVal :=
  call (fun h => handler h message) (EvHandler message).

Definition logger_exception (fmt arg : string) : M unit :=
  emit (EvLogException fmt arg).

Definition print (text : string) : M unit := emit (EvPrint text).

(** The block that opens the [try] of each of the four publish functions:
<<
    if is_large_message(message):
        redis_key = uuid.uuid4()
        attributes["redis_key"] = redis_key
        self.cache_adapter.set(redis_key, message, 10*24*60)
>>
    Its value is the attribute dict as the rest of the function sees it. *)
Definition offload_large_message (message : string) (attributes : Dict) : M Dict :=
  if Helper.is_large_message message then
    redis_key <- uuid4 ;;
    attributes <- dict_setitem attributes "redis_key" (VUuid redis_key) ;;
    cache_set redis_key message (10 * 24 * 60) ;;
    ret attributes
  else ret attributes.

End Calls.

(** ** src/pubsublib/aws/main.py *)

Module Pubsublib.
Section WithEnv.
Context (env : Env).

(** [__publish_message_standard_queue].  The local [message_id] is
    assigned only when the attributes validate; the [else] suite reads it. *)
Definition publish_message_standard_queue
    (topic_arn message : string) (attributes : Dict) : M (option string) :=
  try_except_ClientError_else
    (attributes <- offload_large_message env message attributes ;;
     valid <- validate env attributes ;;
     if valid then
       message_attributes <- bind_attrs env attributes ;;
       response <- sns_publish env (StandardPublish topic_arn message message_attributes) ;;
       ret (Some (ResponseMessageId response))
     else ret None)
    (fun _ =>
       logger_exception "Couldn't publish message to topic %s." topic_arn ;;
       ret None)
    (fun message_id =>
       message_id <- read_local "message_id" message_id ;;
       ret (Some message_id)).

(** [__publish_message_fifo_queue].  Its [except] suite logs and has no
    [return]: the function then ends and yields [None]. *)
Definition publish_message_fifo_queue
    (topic_arn message : string)
    (message_group_id message_deduplication_id : option string)
    (attributes : Dict) : M (option string) :=
  try_except_ClientError_else
    (attributes <- offload_large_message env message attributes ;;
     valid <- validate env attributes ;;
     if valid then
       message_attributes <- bind_attrs env attributes ;;
       response <- sns_publish env
         (FifoPublish topic_arn message message_group_id
                      message_deduplication_id message_attributes) ;;
       ret (Some (ResponseMessageId response))
     else ret None)
    (fun _ =>
       logger_exception "Couldn't publish message to FIFO topic %s." topic_arn ;;
       ret None)
    (fun message_id =>
       message_id <- read_local "message_id" message_id ;;
       ret (Some message_id)).

Definition publish_message
    (topic_arn message : string) (attributes : Dict) (is_fifo : bool)
    (message_group_id message_deduplication_id : option string) : M (option string) :=
  if is_fifo then
    publish_message_fifo_queue topic_arn message message_group_id
                               message_deduplication_id attributes
  else
    publish_message_standard_queue topic_arn message attributes.

(** The loop [for message in recieved_message['Messages']:]. *)
Fixpoint for_each_message
    (sqs_queue_url : string) (handler : Handler) (messages : list Message) : M unit :=
  match messages with
  | [] => ret tt
  | message :: rest =>
      (if negb (Helper.is_message_integrity_verified env (Body message) (MD5OfBody message))
       then @raise unit (ValueError "message corrupted, Message integrity verification failed!")
       else ret tt) ;;
      processing_result <- call_handler handler message ;;
      (if truthy processing_result
       then sqs_delete_message env sqs_queue_url (ReceiptHandle message)
       else ret tt) ;;
      for_each_message sqs_queue_url handler rest
  end.

Definition poll_message_from_queue
    (sqs_queue_url : string) (handler : Handler)
    (visibility_timeout wait_time_seconds : Z)
    (message_attribute_names : list string)
    (max_number_of_messages : Z)
    (attribute_names : list string) : M ReceiveResponse :=
  try_except_ClientError
    (recieved_message <- sqs_receive_message env
       (receive_args sqs_queue_url visibility_timeout wait_time_seconds
          message_attribute_names max_number_of_messages attribute_names) ;;
     match Messages recieved_message with
     | Some messages => for_each_message sqs_queue_url handler messages
     | None => print "No messages received."
     end ;;
     ret recieved_message)
    (fun error =>
       logger_exception "Couldn't poll message from queue with URL=%s!" sqs_queue_url ;;
       raise error).

(** The call with the defaults of the signature. *)
Definition poll_message_from_queue_default
    (sqs_queue_url : string) (handler : Handler) : M ReceiveResponse :=
  poll_message_from_queue sqs_queue_url handler 15 20 ["All"] 10 ["All"].

End WithEnv.
End Pubsublib.

(** ** src/pubsublib_python_orangehealth/aws/main.py *)

Module Legacy.
Section WithEnv.
Context (env : Env).

(** [publish_message].  The argument of the validation is the local
    [message_attributes], which is assigned only on the next line. *)
Definition publish_message
    (topic_arn message : string) (attributes : Dict) : M (option string) :=
  try_except_ClientError_else
    (attributes <- offload_large_message env message attributes ;;
     unvalidated <- read_local "message_attributes" (@None Dict) ;;
     valid <- validate env unvalidated ;;
     if valid then
       message_attributes <- bind_attrs env attributes ;;
       response <- sns_publish env (StandardPublish topic_arn message message_attributes) ;;
       ret (Some (ResponseMessageId response))
     else ret None)
    (fun _ =>
       logger_exception "Couldn't publish message to topic %s." topic_arn ;;
       ret None)
    (fun message_id =>
       message_id <- read_local "message_id" message_id ;;
       ret (Some message_id)).

Definition publish_message_fifo
    (topic_arn message : string)
    (message_group_id message_deduplication_id : option string)
    (attributes : Dict) : M (option string) :=
  try_except_ClientError_else
    (attributes <- offload_large_message env message attributes ;;
     unvalidated <- read_local "message_attributes" (@None Dict) ;;
     valid <- validate env unvalidated ;;
     if valid then
       message_attributes <- bind_attrs env attributes ;;
       response <- sns_publish env
         (FifoPublish topic_arn message message_group_id
                      message_deduplication_id message_attributes) ;;
       ret (Some (ResponseMessageId response))
     else ret None)
    (fun _ =>
       logger_exception "Couldn't publish message to FIFO topic %s." topic_arn ;;
       ret None)
    (fun message_id =>
       message_id <- read_local "message_id" message_id ;;
       ret (Some message_id)).

(** The loop of [poll_message_from_queue]; [message] is the loop variable,
    which the function returns after the loop. *)
Fixpoint for_each_message
    (sqs_queue_url : string) (handler : Handler)
    (messages : list Message) (message : option Message) : M (option Message) :=
  match messages with
  | [] => ret message
  | next :: rest =>
      processing_result <- call_handler handler next ;;
      (if truthy processing_result
       then sqs_delete_message env sqs_queue_url (ReceiptHandle next)
       else ret tt) ;;
      for_each_message sqs_queue_url handler rest (Some next)
  end.

Definition poll_message_from_queue
    (sqs_queue_url : string) (handler : Handler)
    (visibility_timeout wait_time_seconds : Z)
    (message_attribute_names : list string)
    (max_number_of_messages : Z)
    (attribute_names : list string) : M Message :=
  recieved_message <- sqs_receive_message env
    (receive_args sqs_queue_url visibility_timeout wait_time_seconds
       message_attribute_names max_number_of_messages attribute_names) ;;
  message <- match Messages recieved_message with
            | Some messages => for_each_message sqs_queue_url handler messages None
            | None => print "No messages received." ;; ret None
            end ;;
  read_local "message" message.

Definition poll_message_from_queue_default
    (sqs_queue_url : string) (handler : Handler) : M Message :=
  poll_message_from_queue sqs_queue_url handler 20 0 ["All"] 10 ["All"].

End WithEnv.
End Legacy.

(** ** Reading a trace *)

(** The calls of [delete_message]: queue URL and receipt handle. *)
Definition delete_calls (tr : Trace) : list (string * string) :=
  omap (fun ev => match ev with
                  | EvDelete url rh _ => Some (url, rh)
                  | _ => None
                  end) tr.

(** The messages the handler was called with. *)
Definition handler_calls (tr : Trace) : list Message :=
  omap (fun ev => match ev with
                  | EvHandler m _ => Some m
                  | _ => None
                  end) tr.

(** The handler signals success: it returns, and its result is true in the
    sense of [if processing_result:]. *)
Definition signals_success (res : Outcome PyVal) : bool :=
  match res with
  | Return v => truthy v
  | Raise _ => false
  end.

(** The messages for which the handler signalled success. *)
Definition handler_successes (tr : Trace) : list Message :=
  omap (fun ev => match ev with
                  | EvHandler m res => if signals_success res then Some m else None
                  | _ => None
                  end) tr.

(** The calls of the cache adapter's [set]: key, value, TTL in minutes. *)
Definition cache_set_calls (tr : Trace) : list (UUID * string * Z) :=
  omap (fun ev => match ev with
                  | EvCacheSet k v ttl _ => Some (k, v, ttl)
                  | _ => None
                  end) tr.

(** The assignments [attributes[key] = value]. *)
Definition setitem_calls (tr : Trace) : list (string * PyVal) :=
  omap (fun ev => match ev with
                  | EvSetItem k v => Some (k, v)
                  | _ => None
                  end) tr.

(** The calls of [uuid.uuid4]. *)
Definition uuid4_calls (tr : Trace) : list UUID :=
  omap (fun ev => match ev with
                  | EvUuid4 k => Some k
                  | _ => None
                  end) tr.

(** The calls of [sns_client.publish]: what is dispatched to the transport. *)
Definition dispatches (tr : Trace) : list PublishArgs :=
  omap (fun ev => match ev with
                  | EvSnsPublish args _ => Some args
                  | _ => None
                  end) tr.

(** The dicts given to [validate_message_attributes]. *)
Definition validate_calls (tr : Trace) : list Dict :=
  omap (fun ev => match ev with
                  | EvValidate a _ => Some a
                  | _ => None
                  end) tr.

(** The dicts given to [bind_attributes]. *)
Definition bind_calls (tr : Trace) : list Dict :=
  omap (fun ev => match ev with
                  | EvBind a _ => Some a
                  | _ => None
                  end) tr.

(** The calls of [gzip_decompress]. *)
Definition gunzip_calls (tr : Trace) : list (list byte) :=
  omap (fun ev => match ev with
                  | EvGunzip data _ => Some data
                  | _ => None
                  end) tr.

(** The exceptions raised by the transport (SNS publish, SQS receive, SQS
    delete), in order. *)
Definition transport_failures (tr : Trace) : list exn :=
  omap (fun ev => match ev with
                  | EvSnsPublish _ (Raise e) => Some e
                  | EvReceive _ (Raise e) => Some e
                  | EvDelete _ _ (Raise e) => Some e
                  | _ => None
                  end) tr.

(** The exceptions raised by any collaborator, in order. *)
Definition collaborator_failures (tr : Trace) : list exn :=
  omap (fun ev => match ev with
                  | EvB64Decode _ (Raise e) => Some e
                  | EvGunzip _ (Raise e) => Some e
                  | EvCacheSet _ _ _ (Raise e) => Some e
                  | EvValidate _ (Raise e) => Some e
                  | EvBind _ (Raise e) => Some e
                  | EvSnsPublish _ (Raise e) => Some e
                  | EvReceive _ (Raise e) => Some e
                  | EvHandler _ (Raise e) => Some e
                  | EvDelete _ _ (Raise e) => Some e
                  | _ => None
                  end) tr.

(** Reading the trace from the oldest event on: each dict that is bound has
    been validated (with answer [True]) before. *)
Fixpoint binds_validated (validated : list Dict) (tr : Trace) : Prop :=
  match tr with
  | [] => True
  | EvValidate a (Return true) :: tr' => binds_validated (a :: validated) tr'
  | EvBind a _ :: tr' => In a validated /\ binds_validated validated tr'
  | _ :: tr' => binds_validated validated tr'
  end.

Definition validated_before_bound (tr : Trace) : Prop := binds_validated [] tr.

(** Acknowledgement follows the handler: the deletes of a trace are, one
    for one and in order, the receipt handles of the messages for which the
    handler signalled success, on the queue polled. *)
Definition acks_follow_handler (sqs_queue_url : string) (tr : Trace) : Prop :=
  delete_calls tr =
  map (fun m => (sqs_queue_url, ReceiptHandle m)) (handler_successes tr).

(** The integrity check of the consumer loop on a received message. *)
Definition verified (env : Env) (m : Message) : bool :=
  Helper.is_message_integrity_verified env (Body m) (MD5OfBody m).

(** The attribute dict after the offload block of a publish that starts
    with history [h]. *)
Definition offloaded (env : Env) (h : Trace) (message : string) (attributes : Dict) : Dict :=
  if Helper.is_large_message message
  then <["redis_key" := VUuid (uuid_uuid4 env h)]> attributes
  else attributes.

(** The exception the consumer loop raises for a corrupted message (the
    spec's [IntegrityError]). *)
Definition IntegrityError : exn :=
  ValueError "message corrupted, Message integrity verification failed!".

(** An outcome that is a [ConfigurationError]. *)
Definition raises_ConfigurationError {A} (o : Outcome A) : Prop :=
  exists msg, o = Raise (PyException "ConfigurationError" msg).

(** ** Sample collaborators *)

(** A body of [n] bytes. *)
Fixpoint body_of_size (n : nat) : string :=
  match n with
  | O => EmptyString
  | S k => String "x" (body_of_size k)
  end.

Definition body_200KB : string := body_of_size (Z.to_nat Helper.LARGE_MESSAGE_THRESHOLD).
Definition body_200KB_plus_1 : string := String "x" body_200KB.

(** A stand-in digest, enough to tell a matching checksum from a corrupted
    one. *)
Definition sample_digest (body : string) : string := "md5:" ++ body.

Definition sample_message (id body : string) : Message :=
  {| MessageId := id;
     ReceiptHandle := "rh-" ++ id;
     MD5OfBody := sample_digest body;
     Body := body;
     MessageAttributes := ∅ |}.

Definition corrupted_message (id body : string) : Message :=
  {| MessageId := id;
     ReceiptHandle := "rh-" ++ id;
     MD5OfBody := "corrupted";
     Body := body;
     MessageAttributes := ∅ |}.

(** Sample collaborators: the validation accepts every dict, the binding is
    the identity, the cache and the delete succeed, and the transport
    answers a publish by [publish] and a receive by [received]. *)
Definition sample_env
    (publish : PublishArgs -> Outcome PublishResponse)
    (received : Outcome ReceiveResponse) : Env :=
  {| validate_message_attributes := fun _ => Return true;
     bind_attributes := fun a => Return a;
     hashlib_md5_hexdigest := sample_digest;
     base64_b64decode := fun _ => Return [];
     gzip_read := fun data => Return data;
     uuid_uuid4 := fun h => N.add (N.of_nat (length h)) 7;
     cache_adapter_set := fun _ _ _ _ => Return tt;
     sns_client_publish := fun _ args => publish args;
     sqs_client_receive_message := fun _ _ => received;
     sqs_client_delete_message := fun _ _ _ => Return tt |}.

(** A transport that accepts every publish. *)
Definition published (args : PublishArgs) : Outcome PublishResponse :=
  Return {| ResponseMessageId := "mid-1" |}.

(** A transport client that checks its parameters itself, before sending
    anything, and rejects a FIFO publish that lacks an id. *)
Definition published_if_ids (args : PublishArgs) : Outcome PublishResponse :=
  match args with
  | FifoPublish _ _ (Some _) (Some _) _ => published args
  | FifoPublish _ _ _ _ _ =>
      Raise (PyException "ParamValidationError" "Parameter validation failed")
  | StandardPublish _ _ _ => published args
  end.

(** A transport on which every publish fails. *)
Definition publish_fails (args : PublishArgs) : Outcome PublishResponse :=
  Raise (ClientError "Publish").

Definition nothing_received : Outcome ReceiveResponse :=
  Return {| Messages := None |}.

Definition received_batch (messages : list Message) : Outcome ReceiveResponse :=
  Return {| Messages := Some messages |}.

(** A handler that succeeds on every message, and one that fails. *)
Definition handler_ok : Handler := fun _ _ => Return (VBool true).
Definition handler_ko : Handler := fun _ _ => Return (VBool false).

(** A batch of three messages, the second of which is corrupted. *)
Definition sample_batch : list Message :=
  [sample_message "1" "a"; corrupted_message "2" "b"; sample_message "3" "c"].

Definition env_nothing : Env := sample_env published nothing_received.
Definition env_one : Env := sample_env published (received_batch [sample_message "1" "a"]).
Definition env_corrupted : Env := sample_env published (received_batch [corrupted_message "2" "b"]).
Definition env_batch : Env := sample_env published (received_batch sample_batch).
Definition env_publish_fails : Env := sample_env publish_fails nothing_received.
Definition env_checks_ids : Env := sample_env published_if_ids nothing_received.
Definition env_receive_fails : Env :=
  sample_env published (Raise (ClientError "ReceiveMessage")).

(** The receive of a poll of the queue ["url"] with the defaults of the
    current adapter, and with those of the legacy one. *)
Definition default_args : ReceiveArgs := receive_args "url" 15 20 ["All"] 10 ["All"].
Definition legacy_default_args : ReceiveArgs := receive_args "url" 20 0 ["All"] 10 ["All"].

(** A FIFO publish that gives neither a group id nor a deduplication id, on
    a transport that accepts it and on one that checks the ids. *)
Definition fifo_publish_without_ids : Outcome (option string) * Trace :=
  Pubsublib.publish_message env_nothing "arn:aws:sns:ap-south-1:1:orders.fifo" "hello" ∅
    true None None [].

Definition fifo_publish_without_ids_checked : Outcome (option string) * Trace :=
  Pubsublib.publish_message env_checks_ids "arn:aws:sns:ap-south-1:1:orders.fifo" "hello" ∅
    true None None [].

(** A standard publish on a transport that raises [ClientError]. *)
Definition publish_on_failing_transport : Outcome (option string) * Trace :=
  Pubsublib.publish_message env_publish_fails "arn:aws:sns:ap-south-1:1:orders" "hello" ∅
    false None None [].


(** ** More readings of a trace *)

(** The calls of [receive_message]. *)
Definition receive_calls (tr : Trace) : list ReceiveArgs :=
  omap (fun ev => match ev with
                  | EvReceive args _ => Some args
                  | _ => None
                  end) tr.

(** The exceptions the handler raised. *)
Definition handler_failures (tr : Trace) : list exn :=
  omap (fun ev => match ev with
                  | EvHandler _ (Raise e) => Some e
                  | _ => None
                  end) tr.

(** The calls of [logger.exception]: format and argument. *)
Definition log_calls (tr : Trace) : list (string * string) :=
  omap (fun ev => match ev with
                  | EvLogException fmt arg => Some (fmt, arg)
                  | _ => None
                  end) tr.

(** The exceptions the cache adapter raised. *)
Definition cache_failures (tr : Trace) : list exn :=
  omap (fun ev => match ev with
                  | EvCacheSet _ _ _ (Raise e) => Some e
                  | _ => None
                  end) tr.

(** The answers of the validation. *)
Definition validate_answers (tr : Trace) : list (Outcome bool) :=
  omap (fun ev => match ev with
                  | EvValidate _ res => Some res
                  | _ => None
                  end) tr.

(** The message ids the transport returned to a publish. *)
Definition published_ids (tr : Trace) : list string :=
  omap (fun ev => match ev with
                  | EvSnsPublish _ (Return response) => Some (ResponseMessageId response)
                  | _ => None
                  end) tr.

Definition is_ClientError (e : exn) : bool :=
  match e with
  | ClientError _ => true
  | _ => false
  end.

(** The events of a turn of the consumer loop: a call of the handler, or a
    delete. *)
Definition is_turn_event (ev : Event) : bool :=
  match ev with
  | EvHandler _ _ | EvDelete _ _ _ => true
  | _ => false
  end.

(** The events that may follow the receive of a poll: those of the turns,
    the print and the log. *)
Definition is_poll_event (ev : Event) : bool :=
  match ev with
  | EvHandler _ _ | EvDelete _ _ _ | EvPrint _ | EvLogException _ _ => true
  | _ => false
  end.

(** ** Python's [str.endswith] *)

(** [s.endswith(suffix)]: [s] is at least as long as [suffix], and its last
    [len(suffix)] characters are [suffix]. *)
Definition endswith (s suffix : string) : bool :=
  Nat.leb (String.length suffix) (String.length s) &&
  String.eqb
    (substring (String.length s - String.length suffix) (String.length suffix) s)
    suffix.

(** ** src/pubsublib/common/codec.py, the encoding side *)

(** The library functions of the encoding side: writing through
    [gzip.GzipFile] at a compression level, and [base64.b64encode]. *)
Record EncoderLib : Type := {
  gzip_write : list byte -> Z -> Outcome (list byte);
  base64_b64encode : list byte -> list byte
}.

(** [bytes.decode('ascii')]: a byte above 127 raises [UnicodeDecodeError]. *)
Fixpoint decode_ascii (data : list byte) : Outcome string :=
  match data with
  | [] => Return EmptyString
  | b :: rest =>
      if N.ltb (Byte.to_N b) 128 then
        match decode_ascii rest with
        | Return s => Return (String (ascii_of_byte b) s)
        | Raise e => Raise e
        end
      else Raise (PyException "UnicodeDecodeError" "'ascii' codec can't decode byte")
  end.

Module Encoder.
Section WithLib.
Context (lib : EncoderLib).

Definition gzip_compress (data : list byte) (level : Z) : Outcome (list byte) :=
  gzip_write lib data level.

Definition b64_encode (data : list byte) : Outcome string :=
  decode_ascii (base64_b64encode lib data).

Definition gzip_and_b64 (data : list byte) (level : Z) : Outcome string :=
  match gzip_compress data level with
  | Return to_encode => b64_encode to_encode
  | Raise e => Raise e
  end.

(** The calls with the default [level=9]. *)
Definition gzip_compress_default (data : list byte) : Outcome (list byte) :=
  gzip_compress data 9.
Definition gzip_and_b64_default (data : list byte) : Outcome string :=
  gzip_and_b64 data 9.

End WithLib.
End Encoder.

(** ** Topic and queue management *)

(** The management functions call other operations of the transport and log
    at other levels than the publisher and the consumer loop: they have
    their own events, and run in the same way, from the history so far to an
    outcome and the events added. *)
Inductive AdminEvent : Type :=
| AdCreateTopic (Name : string) (Attributes : option (gmap string string))
                (res : Outcome PyVal)
| AdCreateQueue (QueueName : string) (Attributes : option (gmap string string))
                (res : Outcome PyVal)
| AdSubscribe (TopicArn Protocol Endpoint : string) (ReturnSubscriptionArn : bool)
              (Attributes : option (gmap string string)) (res : Outcome PyVal)
| AdLogInfo (fmt : string) (args : list PyVal)
| AdLogError (msg : string)
| AdLogException (fmt arg : string).

Definition AdminTrace : Type := list AdminEvent.

Definition Admin (A : Type) : Type := AdminTrace -> Outcome A * AdminTrace.

Definition admin_ret {A} (a : A) : Admin A := fun _ => (Return a, []).

Definition admin_raise {A} (e : exn) : Admin A := fun _ => (Raise e, []).

Definition admin_bind {A B} (m : Admin A) (k : A -> Admin B) : Admin B :=
  fun h =>
    match m h with
    | (Return a, es) => let (o, es') := k a (h ++ es) in (o, es ++ es')
    | (Raise e, es) => (Raise e, es)
    end.

Definition admin_call {A} (oracle : AdminTrace -> Outcome A)
    (ev : Outcome A -> AdminEvent) : Admin A :=
  fun h => let r := oracle h in (r, [ev r]).

Definition admin_emit (e : AdminEvent) : Admin unit := fun _ => (Return tt, [e]).

(** The value of an expression that has no effect but may raise. *)
Definition admin_eval {A} (o : Outcome A) : Admin A := fun _ => (o, []).

(** [try: body / except ClientError: handler], as in the adapters. *)
Definition admin_try_except_ClientError {A} (body : Admin A) (handler : exn -> Admin A)
    : Admin A :=
  fun h =>
    match body h with
    | (Raise (ClientError op), es) =>
        let (o, es') := handler (ClientError op) (h ++ es) in (o, es ++ es')
    | r => r
    end.

Declare Scope admin_scope.
Delimit Scope admin_scope with admin.
Notation "x <- c1 ;; c2" := (admin_bind c1 (fun x => c2))
  (at level 100, c1 at next level, right associativity) : admin_scope.
Notation "c1 ;; c2" := (admin_bind c1 (fun _ => c2))
  (at level 100, c2 at level 200, right associativity) : admin_scope.

(** What the management functions are given: the transport's operations,
    and the evaluation of an attribute access [obj.name] on the object the
    transport returned. *)
Record AdminEnv : Type := {
  sns_client_create_topic :
    AdminTrace -> string -> option (gmap string string) -> Outcome PyVal;
  sqs_client_create_queue :
    AdminTrace -> string -> option (gmap string string) -> Outcome PyVal;
  sns_client_subscribe :
    AdminTrace -> string -> string -> string -> bool ->
    option (gmap string string) -> Outcome PyVal;
  getattr : PyVal -> string -> Outcome PyVal
}.

Section AdminCalls.
Context (env : AdminEnv).

Definition call_create_topic (Name : string) (Attributes : option (gmap string string))
    : Admin PyVal :=
  admin_call (fun h => sns_client_create_topic env h Name Attributes)
             (AdCreateTopic Name Attributes).

Definition call_create_queue (QueueName : string) (Attributes : option (gmap string string))
    : Admin PyVal :=
  admin_call (fun h => sqs_client_create_queue env h QueueName Attributes)
             (AdCreateQueue QueueName Attributes).

Definition call_subscribe (TopicArn Protocol Endpoint : string)
    (ReturnSubscriptionArn : bool) (Attributes : option (gmap string string))
    : Admin PyVal :=
  admin_call (fun h => sns_client_subscribe env h TopicArn Protocol Endpoint
                         ReturnSubscriptionArn Attributes)
             (AdSubscribe TopicArn Protocol Endpoint ReturnSubscriptionArn Attributes).

Definition logger_info (fmt : string) (args : list PyVal) : Admin unit :=
  admin_emit (AdLogInfo fmt args).

Definition logger_error (msg : string) : Admin unit := admin_emit (AdLogError msg).

Definition admin_logger_exception (fmt arg : string) : Admin unit :=
  admin_emit (AdLogException fmt arg).

End AdminCalls.

(** The attributes of a FIFO topic: [str(True)] is ["True"], [str(False)] is
    ["False"]. *)
Definition fifo_topic_attributes : gmap string string :=
  <["FifoTopic" := "True"]> (<["ContentBasedDeduplication" := "False"]> ∅).

Definition fifo_queue_attributes : gmap string string :=
  <["FifoQueue" := "true"]> ∅.

Definition raw_delivery_attributes : gmap string string :=
  <["RawMessageDelivery" := "true"]> ∅.

Local Open Scope admin_scope.

(** The management functions of [src/pubsublib/aws/main.py]. *)
Module PubsublibAdmin.
Section WithEnv.
Context (env : AdminEnv).

(** [create_topic].  The [else] suite only returns the topic, and cannot
    raise. *)
Definition create_topic (topic_name : string) : Admin PyVal :=
  admin_try_except_ClientError
    (topic <- call_create_topic env topic_name None ;;
     arn <- admin_eval (getattr env topic "arn") ;;
     logger_info "Created topic %s with ARN %s." [VStr topic_name; arn] ;;
     admin_ret topic)
    (fun error =>
       admin_logger_exception "Couldn't create topic %s." topic_name ;;
       admin_raise error).

(** [create_topic_fifo]; [None] is Python's [None]. *)
Definition create_topic_fifo (topic_name : string) : Admin (option PyVal) :=
  admin_try_except_ClientError
    (if endswith topic_name ".fifo" then
       topic <- call_create_topic env topic_name (Some fifo_topic_attributes) ;;
       logger_info "Created FIFO topic with name=%s." [VStr topic_name] ;;
       admin_ret (Some topic)
     else
       logger_error "FIFO Topic name must end with .fifo!" ;;
       admin_ret None)
    (fun error =>
       admin_logger_exception "Couldn't create topic with name=%s!" topic_name ;;
       admin_raise error).

(** [__create_standard_queue]. *)
Definition create_standard_queue (name : string) : Admin PyVal :=
  admin_try_except_ClientError
    (queue <- call_create_queue env name None ;;
     url <- admin_eval (getattr env queue "url") ;;
     logger_info "Created queue %s with URL %s." [VStr name; url] ;;
     admin_ret queue)
    (fun error =>
       admin_logger_exception "Couldn't create queue %s." name ;;
       admin_raise error).

(** [__create_fifo_queue]. *)
Definition create_fifo_queue (name : string) : Admin (option PyVal) :=
  admin_try_except_ClientError
    (if endswith name ".fifo" then
       queue <- call_create_queue env name (Some fifo_queue_attributes) ;;
       logger_info "Created FIFO queue with name=%s." [VStr name] ;;
       admin_ret (Some queue)
     else
       logger_error "FIFO Queue name must end with .fifo!" ;;
       admin_ret None)
    (fun error =>
       admin_logger_exception "Couldn't create FIFO queue with name=%s!" name ;;
       admin_raise error).

Definition create_queue (name : string) (is_fifo : bool) : Admin (option PyVal) :=
  if is_fifo then create_fifo_queue name
  else queue <- create_standard_queue name ;; admin_ret (Some queue).

Definition subscribe_to_topic (sns_topic_arn sqs_queue_arn : string) : Admin PyVal :=
  subscription <- call_subscribe env sns_topic_arn "sqs" sqs_queue_arn true
                    (Some raw_delivery_attributes) ;;
  admin_ret subscription.

End WithEnv.
End PubsublibAdmin.

(** The management functions of
    [src/pubsublib_python_orangehealth/aws/main.py].  [create_topic],
    [create_topic_fifo], [create_queue] and [create_queue_fifo] have the text
    of [create_topic], [create_topic_fifo], [__create_standard_queue] and
    [__create_fifo_queue] above; [subscribe_to_topic] passes no
    [Attributes]. *)
Module LegacyAdmin.
Section WithEnv.
Context (env : AdminEnv).

Definition create_topic (topic_name : string) : Admin PyVal :=
  admin_try_except_ClientError
    (topic <- call_create_topic env topic_name None ;;
     arn <- admin_eval (getattr env topic "arn") ;;
     logger_info "Created topic %s with ARN %s." [VStr topic_name; arn] ;;
     admin_ret topic)
    (fun error =>
       admin_logger_exception "Couldn't create topic %s." topic_name ;;
       admin_raise error).

Definition create_topic_fifo (topic_name : string) : Admin (option PyVal) :=
  admin_try_except_ClientError
    (if endswith topic_name ".fifo" then
       topic <- call_create_topic env topic_name (Some fifo_topic_attributes) ;;
       logger_info "Created FIFO topic with name=%s." [VStr topic_name] ;;
       admin_ret (Some topic)
     else
       logger_error "FIFO Topic name must end with .fifo!" ;;
       admin_ret None)
    (fun error =>
       admin_logger_exception "Couldn't create topic with name=%s!" topic_name ;;
       admin_raise error).

Definition create_queue (name : string) : Admin PyVal :=
  admin_try_except_ClientError
    (queue <- call_create_queue env name None ;;
     url <- admin_eval (getattr env queue "url") ;;
     logger_info "Created queue %s with URL %s." [VStr name; url] ;;
     admin_ret queue)
    (fun error =>
       admin_logger_exception "Couldn't create queue %s." name ;;
       admin_raise error).

Definition create_queue_fifo (name : string) : Admin (option PyVal) :=
  admin_try_except_ClientError
    (if endswith name ".fifo" then
       queue <- call_create_queue env name (Some fifo_queue_attributes) ;;
       logger_info "Created FIFO queue with name=%s." [VStr name] ;;
       admin_ret (Some queue)
     else
       logger_error "FIFO Queue name must end with .fifo!" ;;
       admin_ret None)
    (fun error =>
       admin_logger_exception "Couldn't create FIFO queue with name=%s!" name ;;
       admin_raise error).

Definition subscribe_to_topic (sns_topic_arn sqs_queue_arn : string) : Admin PyVal :=
  subscription <- call_subscribe env sns_topic_arn "sqs" sqs_queue_arn true None ;;
  admin_ret subscription.

End WithEnv.
End LegacyAdmin.

Local Close Scope admin_scope.

(** Reading a management trace. *)
Definition create_topic_calls (tr : AdminTrace)
    : list (string * option (gmap string string)) :=
  omap (fun ev => match ev with
                  | AdCreateTopic name attrs _ => Some (name, attrs)
                  | _ => None
                  end) tr.

Definition create_queue_calls (tr : AdminTrace)
    : list (string * option (gmap string string)) :=
  omap (fun ev => match ev with
                  | AdCreateQueue name attrs _ => Some (name, attrs)
                  | _ => None
                  end) tr.

Definition admin_exception_logs (tr : AdminTrace) : list (string * string) :=
  omap (fun ev => match ev with
                  | AdLogException fmt arg => Some (fmt, arg)
                  | _ => None
                  end) tr.

Definition admin_info_logs (tr : AdminTrace) : list (string * list PyVal) :=
  omap (fun ev => match ev with
                  | AdLogInfo fmt args => Some (fmt, args)
                  | _ => None
                  end) tr.

(** The exceptions the transport raised to a management call. *)
Definition admin_failures (tr : AdminTrace) : list exn :=
  omap (fun ev => match ev with
                  | AdCreateTopic _ _ (Raise e) => Some e
                  | AdCreateQueue _ _ (Raise e) => Some e
                  | AdSubscribe _ _ _ _ _ (Raise e) => Some e
                  | _ => None
                  end) tr.

(** A byte that [decode('ascii')] accepts. *)
Definition is_ascii_byte (b : byte) : bool := N.ltb (Byte.to_N b) 128.

(** Sample management collaborators: every creation succeeds and returns a
    dict, as a client of the transport does, and a dict has no attribute. *)
Definition dict_getattr (obj : PyVal) (name : string) : Outcome PyVal :=
  Raise (PyException "AttributeError" ("'dict' object has no attribute '" ++ name ++ "'")).

Definition sample_admin_env : AdminEnv :=
  {| sns_client_create_topic := fun _ name _ =>
       Return (VDict [("TopicArn", VStr ("arn:aws:sns:ap-south-1:1:" ++ name))]);
     sqs_client_create_queue := fun _ name _ =>
       Return (VDict [("QueueUrl", VStr ("https://sqs/1/" ++ name))]);
     sns_client_subscribe := fun _ _ _ _ _ _ =>
       Return (VDict [("SubscriptionArn", VStr "arn:sub")]);
     getattr := dict_getattr |}.

(** Management collaborators whose creations fail with [ClientError]. *)
Definition failing_admin_env : AdminEnv :=
  {| sns_client_create_topic := fun _ _ _ => Raise (ClientError "CreateTopic");
     sqs_client_create_queue := fun _ _ _ => Raise (ClientError "CreateQueue");
     sns_client_subscribe := fun _ _ _ _ _ _ => Raise (ClientError "Subscribe");
     getattr := dict_getattr |}.

(** Sample codec libraries: stand-ins that are inverse to each other, as the
    real ones are.  The "compression" prepends a marker byte, the
    "encoding" maps each byte to itself. *)
Definition sample_lib : EncoderLib :=
  {| gzip_write := fun data level =>
       if (Z.leb 0 level && Z.leb level 9)%bool then Return (x1f :: data)
       else Raise (ValueError "Bad compression level");
     base64_b64encode := fun data => data |}.

Definition sample_codec_env : Env :=
  {| validate_message_attributes := fun _ => Return true;
     bind_attributes := fun a => Return a;
     hashlib_md5_hexdigest := sample_digest;
     base64_b64decode := fun s => Return (map byte_of_ascii (list_ascii_of_string s));
     gzip_read := fun data =>
       match data with
       | x1f :: rest => Return rest
       | _ => Raise (PyException "BadGzipFile" "Not a gzipped file")
       end;
     uuid_uuid4 := fun h => N.of_nat (length h);
     cache_adapter_set := fun _ _ _ _ => Return tt;
     sns_client_publish := fun _ args => published args;
     sqs_client_receive_message := fun _ _ => nothing_received;
     sqs_client_delete_message := fun _ _ _ => Return tt |}.

(** Collaborators with another cache adapter, or another validation. *)
Definition with_cache_set (env : Env)
    (set : Trace -> UUID -> string -> Z -> Outcome unit) : Env :=
  {| validate_message_attributes := validate_message_attributes env;
     bind_attributes := bind_attributes env;
     hashlib_md5_hexdigest := hashlib_md5_hexdigest env;
     base64_b64decode := base64_b64decode env;
     gzip_read := gzip_read env;
     uuid_uuid4 := uuid_uuid4 env;
     cache_adapter_set := set;
     sns_client_publish := sns_client_publish env;
     sqs_client_receive_message := sqs_client_receive_message env;
     sqs_client_delete_message := sqs_client_delete_message env |}.

Definition with_validate (env : Env) (validate : Dict -> Outcome bool) : Env :=
  {| validate_message_attributes := validate;
     bind_attributes := bind_attributes env;
     hashlib_md5_hexdigest := hashlib_md5_hexdigest env;
     base64_b64decode := base64_b64decode env;
     gzip_read := gzip_read env;
     uuid_uuid4 := uuid_uuid4 env;
     cache_adapter_set := cache_adapter_set env;
     sns_client_publish := sns_client_publish env;
     sqs_client_receive_message := sqs_client_receive_message env;
     sqs_client_delete_message := sqs_client_delete_message env |}.

(** A cache that cannot be reached, and a validation that rejects. *)
Definition cache_unreachable : exn := PyException "ConnectionError" "redis unreachable".
Definition env_cache_fails : Env :=
  with_cache_set env_nothing (fun _ _ _ _ => Raise cache_unreachable).
Definition env_invalid : Env := with_validate env_nothing (fun _ => Return false).

(** A batch of two messages, both intact. *)
Definition env_two : Env :=
  sample_env published (received_batch [sample_message "1" "a"; sample_message "3" "c"]).

(** A handler that raises. *)
Definition handler_error : exn := PyException "RuntimeError" "handler failed".
Definition handler_raises : Handler := fun _ _ => Raise handler_error.

(** A dict in which the caller has put a ["redis_key"] of their own. *)
Definition attributes_with_key : Dict :=
  <["redis_key" := VStr "mine"]> (<["kind" := VStr "order"]> ∅).

(** * Properties *)

(** ** Running computations *)

Lemma bind_run {A B} (m : M A) (k : A -> M B) (h : Trace) :
  bind m k h =
  match m h with
  | (Return a, es) => (fst (k a (h ++ es)), es ++ snd (k a (h ++ es)))
  | (Raise e, es) => (Raise e, es)
  end.
Proof.
  unfold bind. destruct (m h) as [[a | e] es]; [ | reflexivity ].
  destruct (k a (h ++ es)); reflexivity.
Qed.

Lemma bind_ext {A B} (m : M A) (k k' : A -> M B) :
  (forall a h, k a h = k' a h) -> forall h, bind m k h = bind m k' h.
Proof.
  intros Hk h. rewrite !bind_run.
  destruct (m h) as [[a | e] es]; [ rewrite Hk | ]; reflexivity.
Qed.

Lemma bind_assoc {A B C} (m : M A) (k : A -> M B) (k' : B -> M C) (h : Trace) :
  bind (bind m k) k' h = bind m (fun a => bind (k a) k') h.
Proof.
  rewrite !bind_run.
  destruct (m h) as [[a | e] es]; [ | reflexivity ].
  rewrite !bind_run. destruct (k a (h ++ es)) as [[b | e] es'] eqn:Hk; cbn [fst snd].
  - rewrite <- !app_assoc. reflexivity.
  - reflexivity.
Qed.

Lemma bind_ret_l {A B} (a : A) (k : A -> M B) (h : Trace) :
  bind (ret a) k h = k a h.
Proof.
  rewrite bind_run. cbn [ret app]. rewrite app_nil_r.
  destruct (k a h); reflexivity.
Qed.

Lemma bind_ret_r {A} (m : M A) (h : Trace) :
  bind m ret h = m h.
Proof.
  rewrite bind_run. destruct (m h) as [[a | e] es]; [ | reflexivity ].
  cbn [ret fst snd]. rewrite app_nil_r. reflexivity.
Qed.

Lemma try_except_ClientError_run {A} (body : M A) (handler : exn -> M A) (h : Trace) :
  try_except_ClientError body handler h =
  match body h with
  | (Raise (ClientError op), es) =>
      (fst (handler (ClientError op) (h ++ es)),
       es ++ snd (handler (ClientError op) (h ++ es)))
  | r => r
  end.
Proof.
  unfold try_except_ClientError.
  destruct (body h) as [[a | [op | | | ]] es]; try reflexivity.
  destruct (handler _ _); reflexivity.
Qed.

Lemma delete_calls_app (t1 t2 : Trace) :
  delete_calls (t1 ++ t2) = delete_calls t1 ++ delete_calls t2.
Proof. apply omap_app. Qed.

Lemma handler_calls_app (t1 t2 : Trace) :
  handler_calls (t1 ++ t2) = handler_calls t1 ++ handler_calls t2.
Proof. apply omap_app. Qed.

Lemma handler_successes_app (t1 t2 : Trace) :
  handler_successes (t1 ++ t2) = handler_successes t1 ++ handler_successes t2.
Proof. apply omap_app. Qed.

Lemma transport_failures_app (t1 t2 : Trace) :
  transport_failures (t1 ++ t2) = transport_failures t1 ++ transport_failures t2.
Proof. apply omap_app. Qed.

Lemma acks_follow_handler_app (url : string) (t1 t2 : Trace) :
  acks_follow_handler url t1 -> acks_follow_handler url t2 ->
  acks_follow_handler url (t1 ++ t2).
Proof.
  unfold acks_follow_handler. intros H1 H2.
  rewrite delete_calls_app, handler_successes_app, map_app, H1, H2. reflexivity.
Qed.

(** Destructs the scrutinee of a [match] of the goal, innermost first. *)
Ltac case_step :=
  match goal with
  | |- context [match ?x with _ => _ end] =>
      lazymatch x with
      | context [match _ with _ => _ end] => fail
      | _ => destruct x eqn:?
      end
  end.

(** ** The consumer loop *)

Section ConsumerLoop.
Context (env : Env) (sqs_queue_url : string) (handler : Handler).

Local Abbreviation for_each := (Pubsublib.for_each_message env sqs_queue_url handler).

(** One turn of the loop, case by case. *)
Lemma for_each_message_cons (m : Message) (rest : list Message) (h : Trace) :
  for_each (m :: rest) h =
  if verified env m then
    let res := handler h m in
    let called := EvHandler m res in
    match res with
    | Raise e => (Raise e, [called])
    | Return v =>
        if truthy v then
          let d := sqs_client_delete_message env (h ++ [called]) sqs_queue_url (ReceiptHandle m) in
          let deleted := EvDelete sqs_queue_url (ReceiptHandle m) d in
          match d with
          | Raise e => (Raise e, [called; deleted])
          | Return _ =>
              (fst (for_each rest (h ++ [called; deleted])),
               called :: deleted :: snd (for_each rest (h ++ [called; deleted])))
          end
        else
          (fst (for_each rest (h ++ [called])),
           called :: snd (for_each rest (h ++ [called])))
    end
  else (Raise IntegrityError, []).
Proof.
  unfold verified. cbn [Pubsublib.for_each_message]. rewrite bind_run.
  destruct (Helper.is_message_integrity_verified env (Body m) (MD5OfBody m));
    [ | reflexivity ].
  cbn [negb ret raise fst snd app]. rewrite app_nil_r, bind_run.
  unfold call_handler, call. cbn zeta.
  destruct (handler h m) as [v | e]; [ | reflexivity ].
  cbn [fst snd]. rewrite bind_run.
  destruct (truthy v).
  - unfold sqs_delete_message, call. cbn zeta.
    destruct (sqs_client_delete_message env _ _ _) as [[] | e]; [ | reflexivity ].
    cbn [fst snd app]. rewrite <- app_assoc. reflexivity.
  - cbn [ret fst snd app]. rewrite app_nil_r. reflexivity.
Qed.

(** The events of one turn: the handler's call, followed by the delete
    when the handler signalled success. *)
Lemma turn_acks (m : Message) (res : Outcome PyVal) (d : Outcome unit) :
  acks_follow_handler sqs_queue_url
    (EvHandler m res ::
     (if signals_success res then [EvDelete sqs_queue_url (ReceiptHandle m) d] else [])).
Proof.
  unfold acks_follow_handler, delete_calls, handler_successes.
  destruct res as [v | e]; simpl; [ destruct (truthy v) | ]; reflexivity.
Qed.

Lemma acks_follow_handler_cons_handler (m : Message) (v : PyVal) (tr : Trace) :
  truthy v = false ->
  acks_follow_handler sqs_queue_url tr ->
  acks_follow_handler sqs_queue_url (EvHandler m (Return v) :: tr).
Proof.
  intros Hv Htr. apply (acks_follow_handler_app _ [_]); [ | exact Htr ].
  generalize (turn_acks m (Return v) (Return tt)). simpl. rewrite Hv. trivial.
Qed.

Lemma acks_follow_handler_cons_delete (m : Message) (v : PyVal) (d : Outcome unit) (tr : Trace) :
  truthy v = true ->
  acks_follow_handler sqs_queue_url tr ->
  acks_follow_handler sqs_queue_url
    (EvHandler m (Return v) :: EvDelete sqs_queue_url (ReceiptHandle m) d :: tr).
Proof.
  intros Hv Htr. apply (acks_follow_handler_app _ [_; _]); [ | exact Htr ].
  generalize (turn_acks m (Return v) d). simpl. rewrite Hv. trivial.
Qed.

Lemma acks_follow_handler_raise (m : Message) (e : exn) :
  acks_follow_handler sqs_queue_url [EvHandler m (Raise e)].
Proof. reflexivity. Qed.

(** Takes one turn of the loop apart. *)
Ltac loop_turn m h :=
  rewrite for_each_message_cons; cbn zeta;
  destruct (verified env m) eqn:Hok;
  [ destruct (handler h m) as [v | exc] eqn:Hres;
    [ destruct (truthy v) eqn:Hv;
      [ destruct (sqs_client_delete_message env _ sqs_queue_url (ReceiptHandle m))
          as [[] | exc] eqn:Hdel | ] | ] | ];
  cbn [fst snd].

Lemma for_each_message_acks (messages : list Message) (h : Trace) :
  acks_follow_handler sqs_queue_url (snd (for_each messages h)).
Proof.
  revert h. induction messages as [ | m rest IH]; intros h; [ reflexivity | ].
  loop_turn m h.
  - apply acks_follow_handler_cons_delete; [ exact Hv | apply IH ].
  - apply acks_follow_handler_cons_delete; [ exact Hv | reflexivity ].
  - apply acks_follow_handler_cons_handler; [ exact Hv | apply IH ].
  - apply acks_follow_handler_raise.
  - reflexivity.
Qed.

(** The handler is called only with messages whose checksum matches. *)
Lemma for_each_message_handles_verified (messages : list Message) (h : Trace) :
  Forall (fun m => verified env m = true) (handler_calls (snd (for_each messages h))).
Proof.
  revert h. induction messages as [ | m rest IH]; intros h; [ constructor | ].
  loop_turn m h; unfold handler_calls; cbn [omap list_omap]; fold handler_calls;
    repeat first [ exact Hok | apply IH | constructor ].
Qed.

(** When the loop ends without an exception, the handler has been called
    with each message of the batch, once and in order. *)
Lemma for_each_message_returns (messages : list Message) (h : Trace) :
  fst (for_each messages h) = Return tt ->
  handler_calls (snd (for_each messages h)) = messages.
Proof.
  revert h. induction messages as [ | m rest IH]; intros h; [ reflexivity | ].
  loop_turn m h; try discriminate; intros Hret;
    unfold handler_calls; cbn [omap list_omap]; fold handler_calls;
    f_equal; apply IH; exact Hret.
Qed.

(** An exception of the transport ends the loop: it is the loop's
    outcome. *)
Lemma for_each_message_transport_failure (messages : list Message) (h : Trace) (e : exn) :
  In e (transport_failures (snd (for_each messages h))) ->
  fst (for_each messages h) = Raise e.
Proof.
  revert h. induction messages as [ | m rest IH]; intros h; [ intros [] | ].
  loop_turn m h; unfold transport_failures; cbn [omap list_omap]; fold transport_failures;
    try (intros []; fail); try apply IH.
  intros [-> | []]. reflexivity.
Qed.

(** The loop over [pre ++ rest] is the loop over [pre] followed, when it
    ends without an exception, by the loop over [rest]. *)
Lemma for_each_message_app (pre rest : list Message) (h : Trace) :
  for_each (pre ++ rest) h = bind (for_each pre) (fun _ => for_each rest) h.
Proof.
  revert h. induction pre as [ | m pre IH]; intros h.
  - cbn [app Pubsublib.for_each_message]. rewrite bind_ret_l. reflexivity.
  - cbn [app Pubsublib.for_each_message].
    rewrite bind_assoc. apply bind_ext. intros _ h1.
    rewrite bind_assoc. apply bind_ext. intros v h2.
    rewrite bind_assoc. apply bind_ext. intros _ h3.
    apply IH.
Qed.

(** A corrupted message at the head of the batch stops the loop at once. *)
Lemma for_each_message_corrupted (m : Message) (post : list Message) (h : Trace) :
  verified env m = false ->
  for_each (m :: post) h = (Raise IntegrityError, []).
Proof. intros Hbad. rewrite for_each_message_cons, Hbad. reflexivity. Qed.

End ConsumerLoop.

Section Poll.
Context (env : Env) (sqs_queue_url : string) (handler : Handler).
Context (visibility_timeout wait_time_seconds : Z)
        (message_attribute_names : list string)
        (max_number_of_messages : Z)
        (attribute_names : list string).

Local Abbreviation args :=
  (receive_args sqs_queue_url visibility_timeout wait_time_seconds
     message_attribute_names max_number_of_messages attribute_names).
Local Abbreviation poll :=
  (Pubsublib.poll_message_from_queue env sqs_queue_url handler
     visibility_timeout wait_time_seconds message_attribute_names
     max_number_of_messages attribute_names).
Local Abbreviation for_each := (Pubsublib.for_each_message env sqs_queue_url handler).
Local Abbreviation logged :=
  (EvLogException "Couldn't poll message from queue with URL=%s!" sqs_queue_url).

(** A run of [poll_message_from_queue], case by case. *)
Lemma poll_message_from_queue_run (h : Trace) :
  poll h =
  let res := sqs_client_receive_message env h args in
  let received := EvReceive args res in
  match res with
  | Raise (ClientError op) => (Raise (ClientError op), [received; logged])
  | Raise e => (Raise e, [received])
  | Return resp =>
      match Messages resp with
      | None => (Return resp, [received; EvPrint "No messages received."])
      | Some messages =>
          match for_each messages (h ++ [received]) with
          | (Return _, tr) => (Return resp, received :: tr)
          | (Raise (ClientError op), tr) =>
              (Raise (ClientError op), received :: tr ++ [logged])
          | (Raise e, tr) => (Raise e, received :: tr)
          end
      end
  end.
Proof.
  unfold Pubsublib.poll_message_from_queue.
  rewrite try_except_ClientError_run, bind_run.
  unfold sqs_receive_message, call. cbn zeta.
  destruct (sqs_client_receive_message env h _) as [resp | e].
  - rewrite !bind_run. destruct (Messages resp) as [messages | ].
    + destruct (Pubsublib.for_each_message env sqs_queue_url handler messages _)
        as [[[] | e] tr].
      * cbn [ret fst snd app]. rewrite app_nil_r. reflexivity.
      * destruct e; reflexivity.
    + reflexivity.
  - destruct e; reflexivity.
Qed.

End Poll.

Section LegacyPoll.
Context (env : Env) (sqs_queue_url : string) (handler : Handler).
Context (visibility_timeout wait_time_seconds : Z)
        (message_attribute_names : list string)
        (max_number_of_messages : Z)
        (attribute_names : list string).

Local Abbreviation args :=
  (receive_args sqs_queue_url visibility_timeout wait_time_seconds
     message_attribute_names max_number_of_messages attribute_names).
Local Abbreviation poll :=
  (Legacy.poll_message_from_queue env sqs_queue_url handler
     visibility_timeout wait_time_seconds message_attribute_names
     max_number_of_messages attribute_names).
Local Abbreviation for_each := (Legacy.for_each_message env sqs_queue_url handler).

(** One turn of the legacy loop, case by case. *)
Lemma legacy_for_each_message_cons
    (m : Message) (rest : list Message) (last : option Message) (h : Trace) :
  for_each (m :: rest) last h =
  let res := handler h m in
  let called := EvHandler m res in
  match res with
  | Raise e => (Raise e, [called])
  | Return v =>
      if truthy v then
        let d := sqs_client_delete_message env (h ++ [called]) sqs_queue_url (ReceiptHandle m) in
        let deleted := EvDelete sqs_queue_url (ReceiptHandle m) d in
        match d with
        | Raise e => (Raise e, [called; deleted])
        | Return _ =>
            (fst (for_each rest (Some m) (h ++ [called; deleted])),
             called :: deleted :: snd (for_each rest (Some m) (h ++ [called; deleted])))
        end
      else
        (fst (for_each rest (Some m) (h ++ [called])),
         called :: snd (for_each rest (Some m) (h ++ [called])))
  end.
Proof.
  cbn [Legacy.for_each_message]. rewrite bind_run.
  unfold call_handler, call. cbn zeta.
  destruct (handler h m) as [v | e]; [ | reflexivity ].
  cbn [fst snd]. rewrite bind_run.
  destruct (truthy v).
  - unfold sqs_delete_message, call. cbn zeta.
    destruct (sqs_client_delete_message env _ _ _) as [[] | e]; [ | reflexivity ].
    cbn [fst snd app]. rewrite <- app_assoc. reflexivity.
  - cbn [ret fst snd app]. rewrite app_nil_r. reflexivity.
Qed.

Lemma legacy_for_each_message_acks
    (messages : list Message) (last : option Message) (h : Trace) :
  acks_follow_handler sqs_queue_url (snd (for_each messages last h)).
Proof.
  revert last h.
  induction messages as [ | m rest IH]; intros last h; [ reflexivity | ].
  rewrite legacy_for_each_message_cons. cbn zeta.
  destruct (handler h m) as [v | e];
    [ | apply acks_follow_handler_raise ].
  destruct (truthy v) eqn:Hv.
  - destruct (sqs_client_delete_message env _ _ _) as [[] | e];
      apply acks_follow_handler_cons_delete; try exact Hv; [ apply IH | reflexivity ].
  - apply acks_follow_handler_cons_handler; [ exact Hv | apply IH ].
Qed.

(** A run of the legacy [poll_message_from_queue], case by case. *)
Lemma legacy_poll_message_from_queue_run (h : Trace) :
  poll h =
  let res := sqs_client_receive_message env h args in
  let received := EvReceive args res in
  match res with
  | Raise e => (Raise e, [received])
  | Return resp =>
      match Messages resp with
      | None =>
          (Raise (UnboundLocalError "message"),
           [received; EvPrint "No messages received."])
      | Some messages =>
          match for_each messages None (h ++ [received]) with
          | (Return (Some m), tr) => (Return m, received :: tr)
          | (Return None, tr) => (Raise (UnboundLocalError "message"), received :: tr)
          | (Raise e, tr) => (Raise e, received :: tr)
          end
      end
  end.
Proof.
  unfold Legacy.poll_message_from_queue.
  rewrite bind_run. unfold sqs_receive_message, call. cbn zeta.
  destruct (sqs_client_receive_message env h _) as [resp | e]; [ | reflexivity ].
  rewrite !bind_run. destruct (Messages resp) as [messages | ].
  - destruct (Legacy.for_each_message env sqs_queue_url handler messages None _)
      as [[[m | ] | e] tr]; cbn [read_local ret raise fst snd app];
      rewrite ?app_nil_r; reflexivity.
  - reflexivity.
Qed.

End LegacyPoll.

(** ** The codec *)

(** C9.  For every string [s], whatever the base64 and gzip libraries do,
    [b64_decode_and_gunzip_if(s, False)] is [b64_decode(s)]: the same bytes
    (or the same exception of the decoder), the same single call of the
    decoder, and no call of the gzip decompression. *)
Theorem b64_decode_and_gunzip_if_false (env : Env) (s : string) (h : Trace) :
  Codec.b64_decode_and_gunzip_if env s false h = Codec.b64_decode env s h /\
  gunzip_calls (snd (Codec.b64_decode_and_gunzip_if env s false h)) = [] /\
  snd (Codec.b64_decode_and_gunzip_if env s false h)
    = [EvB64Decode s (base64_b64decode env s)].
Proof.
  unfold Codec.b64_decode_and_gunzip_if. rewrite bind_ret_r.
  unfold Codec.b64_decode, call. cbn [snd]. repeat split.
Qed.

(** With the flag set, the decoded bytes do go through the decompression. *)
Lemma b64_decode_and_gunzip_if_true (env : Env) (s : string) (h : Trace) (decoded : list byte) :
  base64_b64decode env s = Return decoded ->
  Codec.b64_decode_and_gunzip_if env s true h =
  (gzip_read env decoded,
   [EvB64Decode s (Return decoded); EvGunzip decoded (gzip_read env decoded)]).
Proof.
  intros Hdec. unfold Codec.b64_decode_and_gunzip_if. rewrite bind_run.
  unfold Codec.b64_decode, Codec.gzip_decompress, call. rewrite Hdec. reflexivity.
Qed.

(** ** The consumer loop, as a whole *)

Section PollProperties.
Context (env : Env) (sqs_queue_url : string) (handler : Handler).
Context (visibility_timeout wait_time_seconds : Z)
        (message_attribute_names : list string)
        (max_number_of_messages : Z)
        (attribute_names : list string).

Local Abbreviation args :=
  (receive_args sqs_queue_url visibility_timeout wait_time_seconds
     message_attribute_names max_number_of_messages attribute_names).
Local Abbreviation poll :=
  (Pubsublib.poll_message_from_queue env sqs_queue_url handler
     visibility_timeout wait_time_seconds message_attribute_names
     max_number_of_messages attribute_names).
Local Abbreviation legacy_poll :=
  (Legacy.poll_message_from_queue env sqs_queue_url handler
     visibility_timeout wait_time_seconds message_attribute_names
     max_number_of_messages attribute_names).
Local Abbreviation for_each := (Pubsublib.for_each_message env sqs_queue_url handler).
Local Abbreviation logged :=
  (EvLogException "Couldn't poll message from queue with URL=%s!" sqs_queue_url).

(** Takes a run of [poll_message_from_queue] apart. *)
Ltac poll_cases h :=
  rewrite (poll_message_from_queue_run env sqs_queue_url handler); cbn zeta;
  destruct (sqs_client_receive_message env h args) as [resp | exc] eqn:Hrecv;
  [ destruct (Messages resp) as [messages | ] eqn:Hmsgs;
    [ destruct (for_each messages (h ++ [EvReceive args (Return resp)]))
        as [[[] | exc] tr] eqn:Hloop;
      [ | destruct exc ]
    | ]
  | destruct exc ];
  cbn [fst snd].

Lemma poll_acks (h : Trace) : acks_follow_handler sqs_queue_url (snd (poll h)).
Proof.
  pose proof (for_each_message_acks env sqs_queue_url handler) as Hacks.
  poll_cases h; try reflexivity;
    specialize (Hacks messages (h ++ [EvReceive args (Return resp)]));
    rewrite Hloop in Hacks; cbn [snd] in Hacks;
    apply (acks_follow_handler_app _ [_]); try reflexivity; try exact Hacks.
  apply acks_follow_handler_app; [ exact Hacks | reflexivity ].
Qed.

Lemma poll_handles_received (h : Trace) (r : ReceiveResponse) (batch : list Message) :
  fst (poll h) = Return r -> Messages r = Some batch ->
  handler_calls (snd (poll h)) = batch.
Proof.
  pose proof (for_each_message_returns env sqs_queue_url handler) as Hret.
  poll_cases h; try discriminate; intros [= <-] Hm.
  - rewrite Hmsgs in Hm. injection Hm as <-.
    specialize (Hret messages (h ++ [EvReceive args (Return resp)])).
    rewrite Hloop in Hret. apply Hret. reflexivity.
  - congruence.
Qed.

Lemma poll_handles_verified (h : Trace) :
  Forall (fun m => verified env m = true) (handler_calls (snd (poll h))).
Proof.
  pose proof (for_each_message_handles_verified env sqs_queue_url handler) as Hver.
  poll_cases h; try constructor;
    specialize (Hver messages (h ++ [EvReceive args (Return resp)]));
    rewrite Hloop in Hver; cbn [snd] in Hver;
    change (EvReceive args (Return resp) :: ?t) with ([EvReceive args (Return resp)] ++ t);
    rewrite ?handler_calls_app; cbn [handler_calls omap list_omap app];
    rewrite ?app_nil_r; exact Hver.
Qed.

Lemma legacy_poll_acks (h : Trace) : acks_follow_handler sqs_queue_url (snd (legacy_poll h)).
Proof.
  rewrite (legacy_poll_message_from_queue_run env sqs_queue_url handler). cbn zeta.
  destruct (sqs_client_receive_message env h args) as [resp | exc]; [ | reflexivity ].
  destruct (Messages resp) as [messages | ]; [ | reflexivity ].
  pose proof (legacy_for_each_message_acks env sqs_queue_url handler messages None
                (h ++ [EvReceive args (Return resp)])) as Hacks.
  destruct (Legacy.for_each_message env sqs_queue_url handler messages None _)
    as [[[m | ] | exc] tr]; cbn [snd] in *;
    apply (acks_follow_handler_app _ [_]); try reflexivity; exact Hacks.
Qed.

(** C1.  In both consumer loops, acknowledgement follows the handler.  In
    every run of [poll_message_from_queue], the calls of [delete_message]
    are, one for one and in order, the receipt handles (on the queue polled)
    of the messages for which the handler signalled success: a message is
    deleted exactly when the handler succeeded on it, with one call of
    delete and its own receipt handle, and a message on which the handler
    returned a false value or raised has no delete.  In the current adapter
    the handler sees only messages that pass the integrity check, and a poll
    that returns has given every received message to the handler, once and
    in order. *)
Theorem poll_deletes_iff_handler_succeeds (h : Trace) :
  acks_follow_handler sqs_queue_url (snd (poll h)) /\
  Forall (fun m => verified env m = true) (handler_calls (snd (poll h))) /\
  (forall resp messages,
      fst (poll h) = Return resp -> Messages resp = Some messages ->
      handler_calls (snd (poll h)) = messages) /\
  acks_follow_handler sqs_queue_url (snd (legacy_poll h)).
Proof.
  split; [ apply poll_acks | ].
  split; [ apply poll_handles_verified | ].
  split; [ apply poll_handles_received | apply legacy_poll_acks ].
Qed.

(** C10.  A batch is not processed as a unit.  When the message at some
    position of the received batch fails the integrity check, and the
    messages before it were processed without an exception, the poll raises
    the integrity error at that message: its events are the receive followed
    by exactly the events of the earlier messages, so that the handler has
    been called with the earlier messages only (neither with the corrupted
    one nor with a later one), and the deletes are those made for the
    earlier messages, which stay in the trace: nothing undoes them. *)
Theorem poll_stops_at_corrupted_message
    (h : Trace) (resp : ReceiveResponse) (pre : list Message) (m : Message)
    (post : list Message) :
  let received := EvReceive args (Return resp) in
  sqs_client_receive_message env h args = Return resp ->
  Messages resp = Some (pre ++ m :: post) ->
  verified env m = false ->
  fst (for_each pre (h ++ [received])) = Return tt ->
  poll h = (Raise IntegrityError, received :: snd (for_each pre (h ++ [received]))) /\
  handler_calls (snd (poll h)) = pre /\
  delete_calls (snd (poll h)) =
    map (fun m => (sqs_queue_url, ReceiptHandle m))
        (handler_successes (snd (for_each pre (h ++ [received])))).
Proof.
  intros received Hrecv Hmsgs Hbad Hpre.
  assert (Hrun : poll h =
                 (Raise IntegrityError, received :: snd (for_each pre (h ++ [received])))).
  { rewrite (poll_message_from_queue_run env sqs_queue_url handler). cbn zeta.
    rewrite Hrecv, Hmsgs. fold received.
    rewrite for_each_message_app, bind_run.
    destruct (for_each pre (h ++ [received])) as [[[] | e] tr]; [ | discriminate ].
    rewrite for_each_message_corrupted by exact Hbad.
    cbn [fst snd]. rewrite app_nil_r. reflexivity. }
  rewrite Hrun. cbn [snd]. split; [ reflexivity | split ].
  - apply (for_each_message_returns env sqs_queue_url handler pre), Hpre.
  - apply (for_each_message_acks env sqs_queue_url handler pre).
Qed.

(** The current adapter never gives a corrupted message to the handler and
    never deletes it: a batch that starts with one raises at once. *)
Lemma poll_rejects_corrupted_message
    (h : Trace) (resp : ReceiveResponse) (m : Message) (post : list Message) :
  sqs_client_receive_message env h args = Return resp ->
  Messages resp = Some (m :: post) ->
  verified env m = false ->
  poll h = (Raise IntegrityError, [EvReceive args (Return resp)]).
Proof.
  intros Hrecv Hmsgs Hbad.
  rewrite (poll_message_from_queue_run env sqs_queue_url handler). cbn zeta.
  rewrite Hrecv, Hmsgs, for_each_message_corrupted by exact Hbad. reflexivity.
Qed.

(** C2, on the legacy adapter.  Its loop has no integrity check: a received
    message whose checksum does not match is given to the handler all the
    same, and it is deleted when the handler signals success. *)
Theorem legacy_poll_handles_corrupted_message
    (h : Trace) (resp : ReceiveResponse) (m : Message) (v : PyVal) :
  let received := EvReceive args (Return resp) in
  let called := EvHandler m (Return v) in
  sqs_client_receive_message env h args = Return resp ->
  Messages resp = Some [m] ->
  verified env m = false ->
  handler (h ++ [received]) m = Return v ->
  truthy v = true ->
  snd (legacy_poll h) =
  [received; called;
   EvDelete sqs_queue_url (ReceiptHandle m)
     (sqs_client_delete_message env (h ++ [received; called]) sqs_queue_url (ReceiptHandle m))].
Proof.
  intros received called Hrecv Hmsgs _ Hres Hv.
  rewrite (legacy_poll_message_from_queue_run env sqs_queue_url handler). cbn zeta.
  rewrite Hrecv, Hmsgs, legacy_for_each_message_cons. cbn zeta.
  fold received. rewrite Hres, Hv. fold called.
  rewrite <- app_assoc. cbn [app].
  destruct (sqs_client_delete_message env _ _ _) as [[] | e]; reflexivity.
Qed.

(** The current adapter returns the (empty) response of the transport when
    nothing was received. *)
Lemma poll_nothing_received (h : Trace) (resp : ReceiveResponse) :
  sqs_client_receive_message env h args = Return resp ->
  Messages resp = None \/ Messages resp = Some [] ->
  fst (poll h) = Return resp.
Proof.
  intros Hrecv Hnone.
  rewrite (poll_message_from_queue_run env sqs_queue_url handler). cbn zeta.
  rewrite Hrecv. destruct Hnone as [-> | ->]; reflexivity.
Qed.

(** C8, on the legacy adapter.  It returns the loop variable [message]: when
    the receive brings no message (no ['Messages'] key, or an empty list),
    the variable was never assigned and the poll raises
    [UnboundLocalError] instead of returning. *)
Theorem legacy_poll_nothing_received_raises (h : Trace) (resp : ReceiveResponse) :
  sqs_client_receive_message env h args = Return resp ->
  Messages resp = None \/ Messages resp = Some [] ->
  fst (legacy_poll h) = Raise (UnboundLocalError "message").
Proof.
  intros Hrecv Hnone.
  rewrite (legacy_poll_message_from_queue_run env sqs_queue_url handler). cbn zeta.
  rewrite Hrecv. destruct Hnone as [-> | ->]; reflexivity.
Qed.

End PollProperties.

(** ** The publisher *)

Lemma is_large_message_true (message : string) :
  Helper.is_large_message message = true <->
  Helper.LARGE_MESSAGE_THRESHOLD < Helper.body_size message.
Proof. unfold Helper.is_large_message. apply Z.ltb_lt. Qed.

Lemma is_large_message_false (message : string) :
  Helper.is_large_message message = false <->
  Helper.body_size message <= Helper.LARGE_MESSAGE_THRESHOLD.
Proof. unfold Helper.is_large_message. rewrite Z.ltb_ge. reflexivity. Qed.

(** The dicts validated once the event [ev] has happened. *)
Lemma binds_validated_cons (validated : list Dict) (ev : Event) (tr : Trace) :
  binds_validated validated (ev :: tr) <->
  (forall a r, ev = EvBind a r -> In a validated) /\
  binds_validated
    (match ev with
     | EvValidate a (Return true) => a :: validated
     | _ => validated
     end) tr.
Proof.
  destruct ev as [ | | | | | a [[ | ] | e] | a r | | | | | | ];
    cbn [binds_validated];
    try (split; [ intros H; split; [ intros ? ? [=] | exact H ] | intros [_ H]; exact H ]).
  split.
  - intros [Hin H]. split; [ intros ? ? [= <- _]; exact Hin | exact H ].
  - intros [Hin H]. split; [ apply (Hin a r eq_refl) | exact H ].
Qed.

(** Reading [binds_validated] event by event: a dict that is bound is among
    those validated so far. *)
Lemma binds_validated_split (validated : list Dict) (tr : Trace) :
  binds_validated validated tr <->
  forall pre a r post,
    tr = pre ++ EvBind a r :: post ->
    In a validated \/ In (EvValidate a (Return true)) pre.
Proof.
  revert validated. induction tr as [ | ev tr IH]; intros validated.
  - split; [ intros _ [ | ? ?] ? ? ? ?; discriminate | intros _; exact I ].
  - rewrite binds_validated_cons, IH. split.
    + intros [Hbind H] [ | ev' pre] a r post Heq; cbn [app] in Heq.
      * injection Heq as -> _. left. apply (Hbind a r eq_refl).
      * injection Heq as <- ->.
        destruct (H pre a r post eq_refl) as [Hin | Hin]; [ | right; right; exact Hin ].
        destruct ev as [ | | | | | a' [[ | ] | e] | | | | | | | ];
          try (left; exact Hin).
        destruct Hin as [<- | Hin]; [ right; left; reflexivity | left; exact Hin ].
    + intros H. split.
      * intros a r ->. destruct (H [] a r tr eq_refl) as [Hin | []]. exact Hin.
      * intros pre a r post ->.
        destruct (H (ev :: pre) a r post eq_refl) as [Hin | [Hev | Hin]].
        -- left. destruct ev as [ | | | | | a' [[ | ] | e] | | | | | | | ];
             try exact Hin. right. exact Hin.
        -- left. subst ev. left. reflexivity.
        -- right. exact Hin.
Qed.

(** [validated_before_bound] in words: whenever a trace binds a dict, an
    earlier event of the trace is the validation of that dict, answered
    [True]. *)
Lemma validated_before_bound_spec (tr : Trace) :
  validated_before_bound tr <->
  forall pre a r post,
    tr = pre ++ EvBind a r :: post -> In (EvValidate a (Return true)) pre.
Proof.
  unfold validated_before_bound. rewrite binds_validated_split. split.
  - intros H pre a r post Heq. destruct (H pre a r post Heq) as [[] | Hin]. exact Hin.
  - intros H pre a r post Heq. right. exact (H pre a r post Heq).
Qed.

(** Unfolds a publish function down to the calls of the collaborators. *)
Ltac unfold_publish :=
  unfold Pubsublib.publish_message, Pubsublib.publish_message_fifo_queue,
    Pubsublib.publish_message_standard_queue, Legacy.publish_message,
    Legacy.publish_message_fifo, try_except_ClientError_else,
    offload_large_message, bind, uuid4, dict_setitem, cache_set, validate,
    bind_attrs, sns_publish, logger_exception, emit, call, read_local, ret, raise.

(** Takes a run of a publish function apart, one goal for each way the
    collaborators may answer. *)
Ltac publish_cases :=
  unfold_publish; repeat case_step; cbn [fst snd app].

Ltac read_trace :=
  cbn [validated_before_bound binds_validated validate_calls bind_calls dispatches
       cache_set_calls setitem_calls uuid4_calls transport_failures
       collaborator_failures omap list_omap In publish_body last] in *.

(** The current adapter validates before it binds.  In each trace of
    [publish_message], an event that binds a dict comes after the validation
    of that very dict, answered [True]; the dict that is validated, and
    bound, is the attribute dict after the offload block (with
    ["redis_key"] when the body is large). *)
Lemma attributes_validated_before_bound
    (env : Env) (topic_arn message : string) (attributes : Dict) (is_fifo : bool)
    (message_group_id message_deduplication_id : option string) (h : Trace) :
  let tr := snd (Pubsublib.publish_message env topic_arn message attributes is_fifo
                   message_group_id message_deduplication_id h) in
  validated_before_bound tr /\
  (forall a, In a (validate_calls tr) -> a = offloaded env h message attributes) /\
  (forall a, In a (bind_calls tr) -> a = offloaded env h message attributes).
Proof.
  cbn zeta. repeat split.
  - publish_cases; read_trace; auto.
  - unfold offloaded. publish_cases; read_trace; intros a' Hin;
      repeat destruct Hin as [<- | Hin]; try destruct Hin; reflexivity.
  - unfold offloaded. publish_cases; read_trace; intros a' Hin;
      repeat destruct Hin as [<- | Hin]; try destruct Hin; reflexivity.
Qed.

(** When the offload block has gone through, the current adapter does call
    the validation, on the attribute dict the block has left. *)
Lemma publish_validates_attributes
    (env : Env) (topic_arn message : string) (attributes : Dict) (is_fifo : bool)
    (message_group_id message_deduplication_id : option string) (h : Trace) :
  let tr := snd (Pubsublib.publish_message env topic_arn message attributes is_fifo
                   message_group_id message_deduplication_id h) in
  collaborator_failures tr = [] ->
  validate_calls tr = [offloaded env h message attributes].
Proof.
  cbn zeta. unfold offloaded.
  publish_cases; read_trace; intros Hnone; try discriminate Hnone; reflexivity.
Qed.

(** C7, on the legacy adapter.  Both legacy publish functions give the
    validation the local [message_attributes], which is assigned only on the
    next line, by the binding.  Reading it raises [UnboundLocalError]: the
    validation never runs, on the attribute dict or on anything else,
    nothing is bound or dispatched, and unless a collaborator (the cache
    adapter) has raised before, the publish ends with that
    [UnboundLocalError]. *)
Theorem legacy_publish_never_validates
    (env : Env) (topic_arn message : string) (attributes : Dict)
    (message_group_id message_deduplication_id : option string) (h : Trace) :
  let run := Legacy.publish_message env topic_arn message attributes h in
  let run_fifo := Legacy.publish_message_fifo env topic_arn message message_group_id
                    message_deduplication_id attributes h in
  (validate_calls (snd run) = [] /\ bind_calls (snd run) = [] /\
   dispatches (snd run) = [] /\
   (collaborator_failures (snd run) = [] ->
    fst run = Raise (UnboundLocalError "message_attributes"))) /\
  (validate_calls (snd run_fifo) = [] /\ bind_calls (snd run_fifo) = [] /\
   dispatches (snd run_fifo) = [] /\
   (collaborator_failures (snd run_fifo) = [] ->
    fst run_fifo = Raise (UnboundLocalError "message_attributes"))).
Proof.
  cbn zeta. repeat split; publish_cases; read_trace; try reflexivity; discriminate.
Qed.

(** C5.  A publish, standard or FIFO, offloads exactly the bodies of more
    than 200 KB.  For such a body (200 KB + 1 byte is enough) the publish
    draws one key from [uuid.uuid4], stores it in the attribute dict under
    ["redis_key"], and calls the cache adapter's [set] once, with that key,
    the body itself and a TTL of 14400 minutes; the dict that goes on to the
    validation is the caller's with that one entry added.  For a body of
    200 KB or less it draws no key, never calls [set], and the dict is the
    caller's, unchanged. *)
Theorem publish_offloads_bodies_over_200KB
    (env : Env) (topic_arn message : string) (attributes : Dict) (is_fifo : bool)
    (message_group_id message_deduplication_id : option string) (h : Trace) :
  let tr := snd (Pubsublib.publish_message env topic_arn message attributes is_fifo
                   message_group_id message_deduplication_id h) in
  let redis_key := uuid_uuid4 env h in
  (200 * 1024 < Helper.body_size message ->
   uuid4_calls tr = [redis_key] /\
   setitem_calls tr = [("redis_key", VUuid redis_key)] /\
   cache_set_calls tr = [(redis_key, message, 14400)] /\
   forall a, In a (validate_calls tr) -> a = <["redis_key" := VUuid redis_key]> attributes) /\
  (Helper.body_size message <= 200 * 1024 ->
   uuid4_calls tr = [] /\
   setitem_calls tr = [] /\
   cache_set_calls tr = [] /\
   forall a, In a (validate_calls tr) -> a = attributes).
Proof.
  cbn zeta. split; intros Hsize.
  - apply is_large_message_true in Hsize.
    unfold_publish. rewrite Hsize. repeat case_step; cbn [fst snd app]; read_trace;
      repeat split; intros a' Hin;
      repeat destruct Hin as [<- | Hin]; try destruct Hin; reflexivity.
  - apply is_large_message_false in Hsize.
    unfold_publish. rewrite Hsize. repeat case_step; cbn [fst snd app]; read_trace;
      repeat split; intros a' Hin;
      repeat destruct Hin as [<- | Hin]; try destruct Hin; reflexivity.
Qed.

(** C6.  When the offload is triggered, what is dispatched to the transport
    still carries the original body: every call of [sns_client.publish] in
    the trace has the message itself as [Message], and whenever the
    attributes (the caller's, with ["redis_key"] added) have been bound, the
    publish dispatches once, with the original body and the bound
    attributes. *)
Theorem offload_keeps_the_inline_body
    (env : Env) (topic_arn message : string) (attributes : Dict) (is_fifo : bool)
    (message_group_id message_deduplication_id : option string) (h : Trace) :
  let tr := snd (Pubsublib.publish_message env topic_arn message attributes is_fifo
                   message_group_id message_deduplication_id h) in
  Helper.is_large_message message = true ->
  (forall args, In args (dispatches tr) -> publish_body args = message) /\
  (forall a w, In (EvBind a (Return w)) tr ->
     a = <["redis_key" := VUuid (uuid_uuid4 env h)]> attributes /\
     dispatches tr =
       [if is_fifo
        then FifoPublish topic_arn message message_group_id message_deduplication_id w
        else StandardPublish topic_arn message w]).
Proof.
  cbn zeta. intros Hlarge. split.
  - unfold_publish. rewrite Hlarge. repeat case_step; cbn [fst snd app]; read_trace;
      intros args Hin; repeat destruct Hin as [<- | Hin]; try destruct Hin; reflexivity.
  - unfold_publish. rewrite Hlarge. repeat case_step; cbn [fst snd app]; read_trace;
      intros a' w Hin;
      repeat (destruct Hin as [Hev | Hin]; [ try discriminate Hev | ]);
      try destruct Hin; injection Hev as <- <-; split; reflexivity.
Qed.

(** C3, as the code has it.  A FIFO publish does not look at the group id
    or at the deduplication id.  Whenever the attributes have been bound it
    dispatches to the transport, passing both ids as they were given
    ([None] when missing); and an exception that leaves the publish is
    either the [UnboundLocalError] of the local [message_id] or an
    exception that a collaborator raised: the adapter has no
    [ConfigurationError] of its own. *)
Theorem fifo_publish_forwards_ids_unchecked
    (env : Env) (topic_arn message : string) (attributes : Dict)
    (message_group_id message_deduplication_id : option string) (h : Trace) :
  let run := Pubsublib.publish_message env topic_arn message attributes true
               message_group_id message_deduplication_id h in
  (forall a w, In (EvBind a (Return w)) (snd run) ->
     dispatches (snd run) =
       [FifoPublish topic_arn message message_group_id message_deduplication_id w]) /\
  (forall e, fst run = Raise e ->
     e = UnboundLocalError "message_id" \/ In e (collaborator_failures (snd run))).
Proof.
  cbn zeta. split.
  - publish_cases; read_trace; intros a' w Hin;
      repeat (destruct Hin as [Hev | Hin]; [ try discriminate Hev | ]);
      try destruct Hin; injection Hev as <- <-; reflexivity.
  - publish_cases; read_trace; intros e' [= <-]; auto.
Qed.

(** ** Failures of the transport *)

(** C4, as the code has it.  A [ClientError] that the transport raises
    during a poll (from the receive or from a delete) is logged with the
    queue URL and raised again to the caller.  A [ClientError] that the
    transport raises during a publish is logged with the topic ARN, and the
    publish then returns [None] to the caller: it is not raised again. *)
Theorem client_error_logged_poll_reraises_publish_returns_none
    (env : Env) (sqs_queue_url : string) (handler : Handler)
    (visibility_timeout wait_time_seconds : Z)
    (message_attribute_names : list string) (max_number_of_messages : Z)
    (attribute_names : list string)
    (topic_arn message : string) (attributes : Dict) (is_fifo : bool)
    (message_group_id message_deduplication_id : option string)
    (h : Trace) (op : string) :
  let polled := Pubsublib.poll_message_from_queue env sqs_queue_url handler
                  visibility_timeout wait_time_seconds message_attribute_names
                  max_number_of_messages attribute_names h in
  let sent := Pubsublib.publish_message env topic_arn message attributes is_fifo
                message_group_id message_deduplication_id h in
  (In (ClientError op) (transport_failures (snd polled)) ->
   fst polled = Raise (ClientError op) /\
   last (snd polled) =
     Some (EvLogException "Couldn't poll message from queue with URL=%s!" sqs_queue_url)) /\
  (In (ClientError op) (transport_failures (snd sent)) ->
   fst sent = Return None /\
   last (snd sent) =
     Some (EvLogException
             (if is_fifo then "Couldn't publish message to FIFO topic %s."
              else "Couldn't publish message to topic %s.") topic_arn)).
Proof.
  cbn zeta. split.
  - pose proof (for_each_message_transport_failure env sqs_queue_url handler) as Hloop.
    rewrite (poll_message_from_queue_run env sqs_queue_url handler). cbn zeta.
    destruct (sqs_client_receive_message env h _) as [resp | exc] eqn:Hrecv.
    + destruct (Messages resp) as [messages | ]; [ | intros [] ].
      specialize (Hloop messages (h ++ [EvReceive
        (receive_args sqs_queue_url visibility_timeout wait_time_seconds
           message_attribute_names max_number_of_messages attribute_names)
        (Return resp)]) (ClientError op)).
      destruct (Pubsublib.for_each_message env sqs_queue_url handler messages _)
        as [[[] | exc] tr]; [ | destruct exc ]; cbn [fst snd] in *;
        rewrite ?app_comm_cons, ?transport_failures_app;
        unfold transport_failures at 1; cbn [omap list_omap app];
        fold (transport_failures tr); rewrite ?app_nil_r;
        intros Hin; specialize (Hloop Hin); try discriminate.
      injection Hloop as ->. split; [ reflexivity | exact (last_snoc _ (_ :: tr)) ].
    + destruct exc; cbn [fst snd transport_failures omap list_omap In];
        intros [Heq | []]; try discriminate.
      injection Heq as ->. split; reflexivity.
  - publish_cases; read_trace; intros Hin;
      repeat (destruct Hin as [Hev | Hin]; [ try discriminate Hev | ]);
      try destruct Hin; split; reflexivity.
Qed.

(** ** The scenarios of the specification, run on sample collaborators *)

(** One message, the handler succeeds: one delete, with its receipt handle. *)
Example poll_one_message_handler_succeeds :
  Pubsublib.poll_message_from_queue_default env_one "url" handler_ok [] =
  (Return {| Messages := Some [sample_message "1" "a"] |},
   [EvReceive default_args (received_batch [sample_message "1" "a"]);
    EvHandler (sample_message "1" "a") (Return (VBool true));
    EvDelete "url" "rh-1" (Return tt)]).
Proof. reflexivity. Qed.

(** One message, the handler fails: no delete. *)
Example poll_one_message_handler_fails :
  Pubsublib.poll_message_from_queue_default env_one "url" handler_ko [] =
  (Return {| Messages := Some [sample_message "1" "a"] |},
   [EvReceive default_args (received_batch [sample_message "1" "a"]);
    EvHandler (sample_message "1" "a") (Return (VBool false))]).
Proof. reflexivity. Qed.

(** One corrupted message: no call of the handler, no delete. *)
Example poll_one_corrupted_message :
  Pubsublib.poll_message_from_queue_default env_corrupted "url" handler_ok [] =
  (Raise IntegrityError,
   [EvReceive default_args (received_batch [corrupted_message "2" "b"])]).
Proof. reflexivity. Qed.

(** Nothing received: the current adapter returns the response. *)
Example poll_nothing_received_sample :
  Pubsublib.poll_message_from_queue_default env_nothing "url" handler_ok [] =
  (Return {| Messages := None |},
   [EvReceive default_args nothing_received; EvPrint "No messages received."]).
Proof. reflexivity. Qed.

(** ** Instances *)

Lemma poll_deletes_iff_handler_succeeds_witness :
  fst (Pubsublib.poll_message_from_queue_default env_one "url" handler_ok []) =
    received_batch [sample_message "1" "a"] /\
  handler_calls (snd (Pubsublib.poll_message_from_queue_default env_one "url" handler_ok [])) =
    [sample_message "1" "a"] /\
  delete_calls (snd (Pubsublib.poll_message_from_queue_default env_one "url" handler_ok [])) =
    [("url", "rh-1")] /\
  delete_calls (snd (Pubsublib.poll_message_from_queue_default env_one "url" handler_ko [])) =
    [].
Proof.
  destruct (poll_deletes_iff_handler_succeeds env_one "url" handler_ok 15 20 ["All"] 10
              ["All"] []) as (Hacks & _ & Hall & _).
  destruct (poll_deletes_iff_handler_succeeds env_one "url" handler_ko 15 20 ["All"] 10
              ["All"] []) as (Hnone & _).
  split; [ reflexivity | ].
  split; [ apply (Hall {| Messages := Some [sample_message "1" "a"] |}); reflexivity | ].
  split; [ exact Hacks | exact Hnone ].
Defined.

Lemma legacy_publish_never_validates_witness :
  Legacy.publish_message env_nothing "arn:aws:sns:ap-south-1:1:orders" "hello" ∅ [] =
    (Raise (UnboundLocalError "message_attributes"), []) /\
  fst (Legacy.publish_message_fifo env_nothing "arn:aws:sns:ap-south-1:1:orders.fifo" "hello"
         (Some "group") (Some "dedup") ∅ []) =
    Raise (UnboundLocalError "message_attributes").
Proof.
  split; [ reflexivity | ].
  apply (legacy_publish_never_validates env_nothing "arn:aws:sns:ap-south-1:1:orders.fifo"
           "hello" ∅ (Some "group") (Some "dedup") []).
  reflexivity.
Defined.

(** The same publish on the current adapter validates the dict, binds it
    and dispatches. *)
Example publish_validates_before_binding_sample :
  Pubsublib.publish_message env_nothing "arn:aws:sns:ap-south-1:1:orders.fifo" "hello" ∅
    true (Some "group") (Some "dedup") [] =
  (Return (Some "mid-1"),
   [EvValidate ∅ (Return true);
    EvBind ∅ (Return ∅);
    EvSnsPublish
      (FifoPublish "arn:aws:sns:ap-south-1:1:orders.fifo" "hello"
         (Some "group") (Some "dedup") ∅)
      (Return {| ResponseMessageId := "mid-1" |})]).
Proof. reflexivity. Qed.

Lemma poll_stops_at_corrupted_message_witness :
  verified env_batch (corrupted_message "2" "b") = false /\
  Pubsublib.poll_message_from_queue_default env_batch "url" handler_ok [] =
  (Raise IntegrityError,
   [EvReceive default_args (received_batch sample_batch);
    EvHandler (sample_message "1" "a") (Return (VBool true));
    EvDelete "url" "rh-1" (Return tt)]).
Proof.
  split; [ reflexivity | ].
  apply (poll_stops_at_corrupted_message env_batch "url" handler_ok 15 20 ["All"] 10 ["All"]
           [] {| Messages := Some sample_batch |}
           [sample_message "1" "a"] (corrupted_message "2" "b") [sample_message "3" "c"]);
    reflexivity.
Defined.

Lemma legacy_poll_handles_corrupted_message_witness :
  verified env_corrupted (corrupted_message "2" "b") = false /\
  snd (Legacy.poll_message_from_queue_default env_corrupted "url" handler_ok []) =
  [EvReceive legacy_default_args (received_batch [corrupted_message "2" "b"]);
   EvHandler (corrupted_message "2" "b") (Return (VBool true));
   EvDelete "url" "rh-2" (Return tt)].
Proof.
  split; [ reflexivity | ].
  apply (legacy_poll_handles_corrupted_message env_corrupted "url" handler_ok 20 0 ["All"] 10
           ["All"] [] {| Messages := Some [corrupted_message "2" "b"] |}
           (corrupted_message "2" "b") (VBool true));
    reflexivity.
Defined.

Lemma legacy_poll_nothing_received_raises_witness :
  sqs_client_receive_message env_nothing [] legacy_default_args = nothing_received /\
  fst (Legacy.poll_message_from_queue_default env_nothing "url" handler_ok []) =
  Raise (UnboundLocalError "message").
Proof.
  split; [ reflexivity | ].
  apply (legacy_poll_nothing_received_raises env_nothing "url" handler_ok 20 0 ["All"] 10
           ["All"] [] {| Messages := None |});
    [ reflexivity | left; reflexivity ].
Defined.

Lemma publish_offloads_bodies_over_200KB_witness :
  (200 * 1024 < Helper.body_size body_200KB_plus_1 /\
   cache_set_calls
     (snd (Pubsublib.publish_message env_nothing "arn" body_200KB_plus_1 ∅ false None None []))
   = [(7%N, body_200KB_plus_1, 14400)]) /\
  (Helper.body_size body_200KB <= 200 * 1024 /\
   cache_set_calls
     (snd (Pubsublib.publish_message env_nothing "arn" body_200KB ∅ false None None []))
   = []).
Proof.
  assert (Hlarge : 200 * 1024 < Helper.body_size body_200KB_plus_1)
    by (vm_compute; reflexivity).
  assert (Hsmall : Helper.body_size body_200KB <= 200 * 1024)
    by (vm_compute; discriminate).
  split; (split; [ assumption | ]).
  - apply (proj1 (publish_offloads_bodies_over_200KB env_nothing "arn" body_200KB_plus_1 ∅
                    false None None []) Hlarge).
  - apply (proj2 (publish_offloads_bodies_over_200KB env_nothing "arn" body_200KB ∅
                    false None None []) Hsmall).
Defined.

Lemma offload_keeps_the_inline_body_witness :
  Helper.is_large_message body_200KB_plus_1 = true /\
  dispatches
    (snd (Pubsublib.publish_message env_nothing "arn" body_200KB_plus_1 ∅ false None None []))
  = [StandardPublish "arn" body_200KB_plus_1 (<["redis_key" := VUuid 7%N]> ∅)].
Proof.
  assert (Hlarge : Helper.is_large_message body_200KB_plus_1 = true)
    by (vm_compute; reflexivity).
  split; [ exact Hlarge | ].
  revert Hlarge. generalize body_200KB_plus_1. intros body Hlarge.
  apply (proj2 (offload_keeps_the_inline_body env_nothing "arn" body ∅ false None None []
                  Hlarge)
           (<["redis_key" := VUuid 7%N]> ∅) (<["redis_key" := VUuid 7%N]> ∅)).
  unfold_publish. rewrite Hlarge. cbn [fst snd app].
  do 4 right. left. reflexivity.
Defined.

Lemma fifo_publish_forwards_ids_unchecked_witness :
  In (EvBind ∅ (Return ∅)) (snd fifo_publish_without_ids) /\
  dispatches (snd fifo_publish_without_ids) =
  [FifoPublish "arn:aws:sns:ap-south-1:1:orders.fifo" "hello" None None ∅].
Proof.
  assert (Hbound : In (EvBind ∅ (Return ∅)) (snd fifo_publish_without_ids))
    by (right; left; reflexivity).
  split; [ exact Hbound | ].
  apply (proj1 (fifo_publish_forwards_ids_unchecked env_nothing
                  "arn:aws:sns:ap-south-1:1:orders.fifo" "hello" ∅ None None [])
           ∅ ∅ Hbound).
Defined.

Lemma client_error_logged_poll_reraises_publish_returns_none_witness :
  (fst (Pubsublib.poll_message_from_queue_default env_receive_fails "url" handler_ok []) =
   Raise (ClientError "ReceiveMessage") /\
   last (snd (Pubsublib.poll_message_from_queue_default env_receive_fails "url" handler_ok [])) =
   Some (EvLogException "Couldn't poll message from queue with URL=%s!" "url")) /\
  (fst publish_on_failing_transport = Return None /\
   last (snd publish_on_failing_transport) =
   Some (EvLogException "Couldn't publish message to topic %s."
           "arn:aws:sns:ap-south-1:1:orders")).
Proof.
  split.
  - apply (proj1 (client_error_logged_poll_reraises_publish_returns_none
                    env_receive_fails "url" handler_ok 15 20 ["All"] 10 ["All"]
                    "arn" "hello" ∅ false None None [] "ReceiveMessage")).
    left. reflexivity.
  - apply (proj2 (client_error_logged_poll_reraises_publish_returns_none
                    env_publish_fails "url" handler_ok 15 20 ["All"] 10 ["All"]
                    "arn:aws:sns:ap-south-1:1:orders" "hello" ∅ false None None []
                    "Publish")).
    left. reflexivity.
Defined.

(** ** What the code does where a claim of the specification fails *)

(** C3 as stated fails: a FIFO publish with neither id raises no
    [ConfigurationError] and is dispatched to the transport, with [None]
    for both ids.  On a transport that accepts the call, the publish returns
    the message id; on a transport client that checks the ids, the exception
    is the client's own, raised by the call the adapter has made. *)
Lemma fifo_publish_without_ids_is_dispatched :
  (~ raises_ConfigurationError (fst fifo_publish_without_ids) /\
   fst fifo_publish_without_ids = Return (Some "mid-1") /\
   dispatches (snd fifo_publish_without_ids) =
   [FifoPublish "arn:aws:sns:ap-south-1:1:orders.fifo" "hello" None None ∅]) /\
  (~ raises_ConfigurationError (fst fifo_publish_without_ids_checked) /\
   fst fifo_publish_without_ids_checked =
   Raise (PyException "ParamValidationError" "Parameter validation failed") /\
   dispatches (snd fifo_publish_without_ids_checked) =
   [FifoPublish "arn:aws:sns:ap-south-1:1:orders.fifo" "hello" None None ∅]).
Proof.
  split; (split; [ intros [msg Hraise]; discriminate Hraise | split; reflexivity ]).
Qed.

(** C4 as stated fails: the [ClientError] of the transport during a publish
    is not raised again; the publish returns [None]. *)
Lemma publish_swallows_client_error :
  transport_failures (snd publish_on_failing_transport) = [ClientError "Publish"] /\
  fst publish_on_failing_transport <> Raise (ClientError "Publish") /\
  fst publish_on_failing_transport = Return None.
Proof.
  split; [ reflexivity | ].
  split; [ discriminate | reflexivity ].
Qed.

(** * More properties of the code *)

(** ** More on the consumer loop *)

Lemma log_calls_app (t1 t2 : Trace) : log_calls (t1 ++ t2) = log_calls t1 ++ log_calls t2.
Proof. apply omap_app. Qed.

Lemma handler_failures_app (t1 t2 : Trace) :
  handler_failures (t1 ++ t2) = handler_failures t1 ++ handler_failures t2.
Proof. apply omap_app. Qed.

Lemma turn_events_no_log (tr : Trace) :
  forallb is_turn_event tr = true -> log_calls tr = [].
Proof.
  induction tr as [ | ev tr IH]; [ reflexivity | ].
  cbn [forallb]. intros [Hev Htr]%andb_prop.
  destruct ev; try discriminate Hev; exact (IH Htr).
Qed.

Lemma turn_events_are_poll_events (tr : Trace) :
  forallb is_turn_event tr = true -> forallb is_poll_event tr = true.
Proof.
  induction tr as [ | ev tr IH]; [ reflexivity | ].
  cbn [forallb]. intros [Hev Htr]%andb_prop. rewrite (IH Htr).
  destruct ev; try discriminate Hev; reflexivity.
Qed.

Section MoreOnTheLoops.
Context (env : Env) (sqs_queue_url : string) (handler : Handler).

Local Abbreviation for_each := (Pubsublib.for_each_message env sqs_queue_url handler).
Local Abbreviation legacy_for_each := (Legacy.for_each_message env sqs_queue_url handler).

Ltac turn m h :=
  rewrite for_each_message_cons; cbn zeta;
  destruct (verified env m) eqn:Hok;
  [ destruct (handler h m) as [v | exc] eqn:Hres;
    [ destruct (truthy v) eqn:Hv;
      [ destruct (sqs_client_delete_message env _ sqs_queue_url (ReceiptHandle m))
          as [[] | exc] eqn:Hdel | ] | ] | ];
  cbn [fst snd].

Ltac legacy_turn m h :=
  rewrite legacy_for_each_message_cons; cbn zeta;
  destruct (handler h m) as [v | exc] eqn:Hres;
  [ destruct (truthy v) eqn:Hv;
    [ destruct (sqs_client_delete_message env _ sqs_queue_url (ReceiptHandle m))
        as [[] | exc] eqn:Hdel | ] | ];
  cbn [fst snd].

Lemma for_each_message_turn_events (messages : list Message) (h : Trace) :
  forallb is_turn_event (snd (for_each messages h)) = true.
Proof.
  revert h. induction messages as [ | m rest IH]; intros h; [ reflexivity | ].
  turn m h; cbn [forallb is_turn_event andb]; try reflexivity; apply IH.
Qed.

Lemma legacy_for_each_message_turn_events
    (messages : list Message) (last : option Message) (h : Trace) :
  forallb is_turn_event (snd (legacy_for_each messages last h)) = true.
Proof.
  revert last h. induction messages as [ | m rest IH]; intros last h; [ reflexivity | ].
  legacy_turn m h; cbn [forallb is_turn_event andb]; try reflexivity; apply IH.
Qed.

(** The handler sees a prefix of the batch, in order. *)
Lemma for_each_message_prefix (messages : list Message) (h : Trace) :
  handler_calls (snd (for_each messages h)) `prefix_of` messages.
Proof.
  revert h. induction messages as [ | m rest IH]; intros h; [ reflexivity | ].
  turn m h; unfold handler_calls; cbn [omap list_omap]; fold handler_calls;
    first [ apply prefix_cons, IH | apply prefix_cons, prefix_nil | apply prefix_nil ].
Qed.

Lemma legacy_for_each_message_prefix
    (messages : list Message) (last : option Message) (h : Trace) :
  handler_calls (snd (legacy_for_each messages last h)) `prefix_of` messages.
Proof.
  revert last h. induction messages as [ | m rest IH]; intros last h; [ reflexivity | ].
  legacy_turn m h; unfold handler_calls; cbn [omap list_omap]; fold handler_calls;
    first [ apply prefix_cons, IH | apply prefix_cons, prefix_nil ].
Qed.

(** An exception of the handler, or of a delete, ends the loop: it is the
    loop's outcome. *)
Lemma for_each_message_handler_failure (messages : list Message) (h : Trace) (e : exn) :
  In e (handler_failures (snd (for_each messages h))) ->
  fst (for_each messages h) = Raise e.
Proof.
  revert h. induction messages as [ | m rest IH]; intros h; [ intros [] | ].
  turn m h; unfold handler_failures; cbn [omap list_omap]; fold handler_failures;
    try (intros []; fail); try apply IH.
  intros [-> | []]. reflexivity.
Qed.

Lemma legacy_for_each_message_failure
    (messages : list Message) (last : option Message) (h : Trace) (e : exn) :
  In e (handler_failures (snd (legacy_for_each messages last h))) \/
  In e (transport_failures (snd (legacy_for_each messages last h))) ->
  fst (legacy_for_each messages last h) = Raise e.
Proof.
  revert last h. induction messages as [ | m rest IH]; intros last h; [ intros [[] | []] | ].
  legacy_turn m h; unfold handler_failures, transport_failures; cbn [omap list_omap];
    fold handler_failures; fold transport_failures;
    try apply IH; intros [Hin | Hin]; try destruct Hin as [-> | []]; try destruct Hin;
    reflexivity.
Qed.

(** A loop that ends without an exception had no failure at all, and every
    message of the batch passed the integrity check. *)
Lemma for_each_message_clean (messages : list Message) (h : Trace) :
  fst (for_each messages h) = Return tt ->
  handler_failures (snd (for_each messages h)) = [] /\
  transport_failures (snd (for_each messages h)) = [] /\
  Forall (fun m => verified env m = true) messages.
Proof.
  revert h. induction messages as [ | m rest IH]; intros h;
    [ intros _; repeat split; constructor | ].
  turn m h; try discriminate; intros Hret;
    destruct (IH _ Hret) as (Hh & Ht & Hall);
    unfold handler_failures, transport_failures; cbn [omap list_omap];
    fold handler_failures; fold transport_failures;
    (split; [ exact Hh | split; [ exact Ht | constructor; [ exact Hok | exact Hall ] ] ]).
Qed.

(** The legacy loop, when it ends without an exception, has given every
    message to the handler and yields the last one. *)
Lemma legacy_for_each_message_returns
    (messages : list Message) (last0 : option Message) (h : Trace) (o : option Message) :
  fst (legacy_for_each messages last0 h) = Return o ->
  o = match last messages with Some m => Some m | None => last0 end /\
  handler_calls (snd (legacy_for_each messages last0 h)) = messages.
Proof.
  revert last0 h. induction messages as [ | m rest IH]; intros last0 h.
  - cbn. intros [= <-]. split; reflexivity.
  - assert (Hlast : forall d : option Message,
               match last rest with Some m' => Some m' | None => Some m end =
               match last (m :: rest) with Some m' => Some m' | None => d end).
    { intros d. destruct rest as [ | m' rest']; [ reflexivity | ].
      change (last (m :: m' :: rest')) with (last (m' :: rest')).
      destruct (last (m' :: rest')) eqn:Hl; [ reflexivity | ].
      apply last_None in Hl. discriminate Hl. }
    legacy_turn m h; try discriminate; intros Hret;
      destruct (IH _ _ Hret) as (Ho & Hcalls);
      (split; [ rewrite Ho; apply Hlast | ]);
      unfold handler_calls; cbn [omap list_omap]; fold handler_calls;
      f_equal; exact Hcalls.
Qed.

End MoreOnTheLoops.

Section MoreOnPoll.
Context (env : Env) (sqs_queue_url : string) (handler : Handler).
Context (visibility_timeout wait_time_seconds : Z)
        (message_attribute_names : list string)
        (max_number_of_messages : Z)
        (attribute_names : list string).

Local Abbreviation args :=
  (receive_args sqs_queue_url visibility_timeout wait_time_seconds
     message_attribute_names max_number_of_messages attribute_names).
Local Abbreviation poll :=
  (Pubsublib.poll_message_from_queue env sqs_queue_url handler
     visibility_timeout wait_time_seconds message_attribute_names
     max_number_of_messages attribute_names).
Local Abbreviation legacy_poll :=
  (Legacy.poll_message_from_queue env sqs_queue_url handler
     visibility_timeout wait_time_seconds message_attribute_names
     max_number_of_messages attribute_names).
Local Abbreviation for_each := (Pubsublib.for_each_message env sqs_queue_url handler).
Local Abbreviation legacy_for_each := (Legacy.for_each_message env sqs_queue_url handler).
Local Abbreviation poll_log :=
  ("Couldn't poll message from queue with URL=%s!", sqs_queue_url).

Ltac run_poll h :=
  rewrite (poll_message_from_queue_run env sqs_queue_url handler); cbn zeta;
  destruct (sqs_client_receive_message env h args) as [resp | exc] eqn:Hrecv;
  [ destruct (Messages resp) as [messages | ] eqn:Hmsgs;
    [ destruct (for_each messages (h ++ [EvReceive args (Return resp)]))
        as [[[] | exc] tr] eqn:Hloop;
      [ | destruct exc ]
    | ]
  | destruct exc ];
  cbn [fst snd].

Ltac run_legacy_poll h :=
  rewrite (legacy_poll_message_from_queue_run env sqs_queue_url handler); cbn zeta;
  destruct (sqs_client_receive_message env h args) as [resp | exc] eqn:Hrecv;
  [ destruct (Messages resp) as [messages | ] eqn:Hmsgs;
    [ destruct (legacy_for_each messages None (h ++ [EvReceive args (Return resp)]))
        as [[[m | ] | exc] tr] eqn:Hloop
    | ]
  | ];
  cbn [fst snd].

(** X1.  A poll, of either adapter, calls [receive_message] exactly once,
    first, with the queue URL and the parameters it was given.  What follows
    is made of handler calls, deletes, the print and the log only: a poll
    never receives a second time, never publishes and never touches the
    cache. *)
Theorem poll_receives_once (h : Trace) :
  (exists res rest,
      snd (poll h) = EvReceive args res :: rest /\
      forallb is_poll_event rest = true) /\
  (exists res rest,
      snd (legacy_poll h) = EvReceive args res :: rest /\
      forallb is_poll_event rest = true) /\
  receive_calls (snd (poll h)) = [args] /\
  receive_calls (snd (legacy_poll h)) = [args].
Proof.
  assert (Hnone : forall tr, forallb is_poll_event tr = true -> receive_calls tr = []).
  { induction tr as [ | ev tr IH]; [ reflexivity | ].
    cbn [forallb]. intros [Hev Htr]%andb_prop.
    destruct ev; try discriminate Hev; exact (IH Htr). }
  assert (Hpoll : exists res rest,
             snd (poll h) = EvReceive args res :: rest /\
             forallb is_poll_event rest = true).
  { pose proof (for_each_message_turn_events env sqs_queue_url handler) as Hturn.
    run_poll h; eexists _, _; (split; [ reflexivity | ]); try reflexivity;
      specialize (Hturn messages (h ++ [EvReceive args (Return resp)]));
      rewrite Hloop in Hturn; cbn [snd] in Hturn;
      apply turn_events_are_poll_events in Hturn; try exact Hturn.
    rewrite forallb_app, Hturn. reflexivity. }
  assert (Hlegacy : exists res rest,
             snd (legacy_poll h) = EvReceive args res :: rest /\
             forallb is_poll_event rest = true).
  { pose proof (legacy_for_each_message_turn_events env sqs_queue_url handler) as Hturn.
    run_legacy_poll h; eexists _, _; (split; [ reflexivity | ]); try reflexivity;
      specialize (Hturn messages None (h ++ [EvReceive args (Return resp)]));
      rewrite Hloop in Hturn; cbn [snd] in Hturn;
      apply turn_events_are_poll_events in Hturn; exact Hturn. }
  split; [ exact Hpoll | split; [ exact Hlegacy | ] ].
  destruct Hpoll as (res & rest & -> & Hrest).
  destruct Hlegacy as (res' & rest' & -> & Hrest').
  assert (Hcons : forall a r t, receive_calls (EvReceive a r :: t) = a :: receive_calls t)
    by reflexivity.
  rewrite !Hcons, (Hnone _ Hrest), (Hnone _ Hrest'). split; reflexivity.
Qed.

(** X2.  The handler is given the received messages in the order of the
    batch, none twice and none skipped: in every run of a poll, of either
    adapter, also one that ends with an exception, the messages the handler
    was called with are a prefix of the batch. *)
Theorem poll_handles_in_receipt_order
    (h : Trace) (resp : ReceiveResponse) (messages : list Message) :
  sqs_client_receive_message env h args = Return resp ->
  Messages resp = Some messages ->
  handler_calls (snd (poll h)) `prefix_of` messages /\
  handler_calls (snd (legacy_poll h)) `prefix_of` messages.
Proof.
  intros Hrecv Hmsgs. split.
  - pose proof (for_each_message_prefix env sqs_queue_url handler messages
                  (h ++ [EvReceive args (Return resp)])) as Hpre.
    rewrite (poll_message_from_queue_run env sqs_queue_url handler). cbn zeta.
    rewrite Hrecv, Hmsgs.
    destruct (for_each messages _) as [[[] | exc] tr]; [ | destruct exc ];
      cbn [fst snd] in *; try exact Hpre.
    change (EvReceive args (Return resp) :: tr ++ ?l)
      with ((EvReceive args (Return resp) :: tr) ++ l).
    rewrite handler_calls_app. cbn [handler_calls omap list_omap].
    rewrite app_nil_r. exact Hpre.
  - pose proof (legacy_for_each_message_prefix env sqs_queue_url handler messages None
                  (h ++ [EvReceive args (Return resp)])) as Hpre.
    rewrite (legacy_poll_message_from_queue_run env sqs_queue_url handler). cbn zeta.
    rewrite Hrecv, Hmsgs.
    destruct (legacy_for_each messages None _) as [[[m | ] | exc] tr];
      cbn [fst snd] in *; exact Hpre.
Qed.

(** X3.  An exception of the handler is never turned into a success: when
    the handler raises on a message, the poll, of either adapter, ends with
    that very exception. *)
Theorem poll_propagates_handler_exception (h : Trace) (e : exn) :
  (In e (handler_failures (snd (poll h))) -> fst (poll h) = Raise e) /\
  (In e (handler_failures (snd (legacy_poll h))) -> fst (legacy_poll h) = Raise e).
Proof.
  split.
  - pose proof (for_each_message_handler_failure env sqs_queue_url handler) as Hfail.
    run_poll h; try (intros []; fail);
      specialize (Hfail messages (h ++ [EvReceive args (Return resp)]) e);
      rewrite Hloop in Hfail; cbn [fst snd] in Hfail;
      rewrite ?app_comm_cons, ?handler_failures_app;
      unfold handler_failures at 1; cbn [omap list_omap app];
      fold (handler_failures tr); rewrite ?app_nil_r;
      intros Hin; specialize (Hfail Hin); try discriminate Hfail;
      injection Hfail as <-; reflexivity.
  - pose proof (legacy_for_each_message_failure env sqs_queue_url handler) as Hfail.
    run_legacy_poll h; try (intros []; fail);
      specialize (Hfail messages None (h ++ [EvReceive args (Return resp)]) e);
      rewrite Hloop in Hfail; cbn [fst snd] in Hfail;
      intros Hin; specialize (Hfail (or_introl Hin)); try discriminate Hfail;
      injection Hfail as <-; reflexivity.
Qed.

(** X4.  The current poll logs exactly when it ends with a [ClientError]
    (of the receive, of a delete or of the handler), once, with the queue
    URL; any other exception, the integrity error included, leaves it
    without a log.  The legacy poll never logs. *)
Theorem poll_logs_exactly_client_errors (h : Trace) :
  log_calls (snd (poll h)) =
    match fst (poll h) with
    | Raise (ClientError _) => [poll_log]
    | _ => []
    end /\
  log_calls (snd (legacy_poll h)) = [].
Proof.
  split.
  - pose proof (for_each_message_turn_events env sqs_queue_url handler) as Hturn.
    run_poll h; try reflexivity;
      specialize (Hturn messages (h ++ [EvReceive args (Return resp)]));
      rewrite Hloop in Hturn; cbn [snd] in Hturn;
      apply turn_events_no_log in Hturn;
      rewrite ?app_comm_cons, ?log_calls_app;
      unfold log_calls at 1; cbn [omap list_omap]; fold (log_calls tr);
      rewrite Hturn; reflexivity.
  - pose proof (legacy_for_each_message_turn_events env sqs_queue_url handler) as Hturn.
    run_legacy_poll h; try reflexivity;
      specialize (Hturn messages None (h ++ [EvReceive args (Return resp)]));
      rewrite Hloop in Hturn; cbn [snd] in Hturn;
      apply turn_events_no_log in Hturn; exact Hturn.
Qed.

(** X5.  The current poll returns only when nothing went wrong, and then it
    returns the response of the transport as it came: the handler did not
    raise, no delete failed, and every message of the response passed the
    integrity check. *)
Theorem poll_returns_the_response (h : Trace) (r : ReceiveResponse) :
  fst (poll h) = Return r ->
  sqs_client_receive_message env h args = Return r /\
  handler_failures (snd (poll h)) = [] /\
  transport_failures (snd (poll h)) = [] /\
  forall messages,
    Messages r = Some messages -> Forall (fun m => verified env m = true) messages.
Proof.
  pose proof (for_each_message_clean env sqs_queue_url handler) as Hclean.
  run_poll h; try discriminate; intros [= <-].
  - specialize (Hclean messages (h ++ [EvReceive args (Return resp)])).
    rewrite Hloop in Hclean. destruct (Hclean eq_refl) as (Hh & Ht & Hall).
    cbn [snd] in Hh, Ht.
    split; [ reflexivity | split; [ exact Hh | split; [ exact Ht | ] ] ].
    intros messages' Hm. rewrite Hmsgs in Hm. injection Hm as <-. exact Hall.
  - split; [ reflexivity | split; [ reflexivity | split; [ reflexivity | ] ] ].
    intros messages Hm. congruence.
Qed.

(** X6.  The legacy poll, when it returns, returns one message, not the
    batch: the last message of the response, after the handler has been
    called with every message of it. *)
Theorem legacy_poll_returns_last_message (h : Trace) (returned : Message) :
  fst (legacy_poll h) = Return returned ->
  exists resp messages,
    sqs_client_receive_message env h args = Return resp /\
    Messages resp = Some messages /\
    last messages = Some returned /\
    handler_calls (snd (legacy_poll h)) = messages.
Proof.
  pose proof (legacy_for_each_message_returns env sqs_queue_url handler) as Hret.
  run_legacy_poll h; try discriminate; intros [= <-].
  specialize (Hret messages None (h ++ [EvReceive args (Return resp)]) (Some m)).
  rewrite Hloop in Hret. destruct (Hret eq_refl) as (Hlast & Hcalls).
  exists resp, messages. split; [ reflexivity | split; [ exact Hmsgs | ] ].
  split; [ | exact Hcalls ].
  destruct (last messages); [ congruence | discriminate Hlast ].
Qed.

End MoreOnPoll.

(** ** More on the publisher *)

Ltac read_more :=
  cbn [validate_calls validate_answers bind_calls dispatches published_ids
       cache_set_calls cache_failures setitem_calls uuid4_calls log_calls
       transport_failures collaborator_failures omap list_omap In length
       is_ClientError fst snd] in *.

Section MoreOnPublish.
Context (env : Env) (topic_arn message : string) (attributes : Dict) (is_fifo : bool)
        (message_group_id message_deduplication_id : option string) (h : Trace).

Local Abbreviation run :=
  (Pubsublib.publish_message env topic_arn message attributes is_fifo
     message_group_id message_deduplication_id h).
Local Abbreviation publish_log :=
  (if is_fifo then "Couldn't publish message to FIFO topic %s."
   else "Couldn't publish message to topic %s.", topic_arn).

(** X7.  A publish dispatches at most once: there is no retry.  It returns
    a message id only when that one dispatch succeeded, and the id is the
    one the transport returned. *)
Theorem publish_dispatches_at_most_once :
  (length (dispatches (snd run)) <= 1)%nat /\
  forall id, fst run = Return (Some id) ->
    published_ids (snd run) = [id] /\ length (dispatches (snd run)) = 1%nat.
Proof.
  split.
  - publish_cases; read_more; lia.
  - publish_cases; read_more; intros id [= <-]; split; reflexivity.
Qed.

(** X8.  A publish returns [None] exactly when one of its collaborators
    (the cache adapter, the helper or the transport) raised a
    [ClientError]; it logs exactly then, once, with the topic ARN.  Any
    other exception of a collaborator leaves the publish as it is, without
    a log. *)
Theorem publish_returns_none_exactly_on_client_error :
  (fst run = Return None <->
   exists op, In (ClientError op) (collaborator_failures (snd run))) /\
  log_calls (snd run) =
    match fst run with
    | Return None => [publish_log]
    | _ => []
    end /\
  forall e, In e (collaborator_failures (snd run)) -> is_ClientError e = false ->
    fst run = Raise e.
Proof.
  repeat split.
  - publish_cases; read_more; intros Hnone; try discriminate Hnone;
      eexists; left; reflexivity.
  - publish_cases; read_more; intros [op Hin];
      repeat (destruct Hin as [Hev | Hin]; [ try discriminate Hev | ]);
      try destruct Hin; reflexivity.
  - publish_cases; read_more; first [ reflexivity | congruence ].
  - publish_cases; read_more; intros e' Hin Hne;
      repeat (destruct Hin as [Hev | Hin]; [ subst e'; try discriminate Hne | ]);
      try destruct Hin; reflexivity.
Qed.

(** X9.  When the validation answers [False], nothing is bound, dispatched
    or logged, and the publish does not return: its [else] suite reads
    [message_id], which was never assigned, and raises
    [UnboundLocalError]. *)
Theorem publish_of_invalid_attributes_raises :
  In (Return false) (validate_answers (snd run)) ->
  fst run = Raise (UnboundLocalError "message_id") /\
  bind_calls (snd run) = [] /\
  dispatches (snd run) = [] /\
  log_calls (snd run) = [].
Proof.
  publish_cases; read_more; intros Hin;
    repeat (destruct Hin as [Hev | Hin]; [ try discriminate Hev | ]);
    try destruct Hin; repeat split.
Qed.

(** X10.  The key is put into the caller's dict before the body is stored:
    when the cache adapter raises, the dict already has ["redis_key"], and
    the publish stops there, with nothing validated and nothing
    dispatched.  It returns [None] if the exception is a [ClientError] and
    raises it otherwise. *)
Theorem publish_stops_when_cache_fails (e : exn) :
  In e (cache_failures (snd run)) ->
  setitem_calls (snd run) = [("redis_key", VUuid (uuid_uuid4 env h))] /\
  validate_calls (snd run) = [] /\
  dispatches (snd run) = [] /\
  fst run = if is_ClientError e then Return None else Raise e.
Proof.
  publish_cases; read_more; intros Hin;
    repeat (destruct Hin as [Hev | Hin]; [ subst e | ]);
    try destruct Hin; cbn [is_ClientError] in *; repeat split; congruence.
Qed.

(** X11.  A large body is dispatched only after the cache adapter has
    stored it: if a publish of a large body dispatches, its trace has the
    [set] of the body under the key, answered without an exception. *)
Theorem large_body_dispatched_only_if_stored :
  Helper.is_large_message message = true ->
  dispatches (snd run) <> [] ->
  In (EvCacheSet (uuid_uuid4 env h) message 14400 (Return tt)) (snd run).
Proof.
  intros Hlarge. unfold_publish. rewrite Hlarge.
  repeat case_step; cbn [fst snd app]; read_more; intros Hd;
    try (destruct (Hd eq_refl));
    repeat match goal with x : unit |- _ => destruct x end;
    do 2 right; left; reflexivity.
Qed.

(** X12.  The offload overwrites one key and leaves the others: in the
    dict that goes to the validation, ["redis_key"] is the key drawn (also
    when the caller had put a ["redis_key"] of their own), and every other
    key has the caller's value.  For a body that is not large the dict is
    the caller's. *)
Theorem offload_changes_only_redis_key (a : Dict) :
  In a (validate_calls (snd run)) ->
  if Helper.is_large_message message then
    a !! "redis_key" = Some (VUuid (uuid_uuid4 env h)) /\
    forall key, key <> "redis_key" -> a !! key = attributes !! key
  else a = attributes.
Proof.
  intros Hin.
  destruct (attributes_validated_before_bound env topic_arn message attributes is_fifo
              message_group_id message_deduplication_id h) as (_ & Hval & _).
  specialize (Hval a Hin). unfold offloaded in Hval.
  destruct (Helper.is_large_message message); [ | exact Hval ].
  subst a. split.
  - apply lookup_insert_eq.
  - intros key Hne. apply lookup_insert_ne. congruence.
Qed.

End MoreOnPublish.

(** X13.  The legacy publish functions offload a large body before they
    fail: the body is stored in the cache under a fresh key, with the TTL of
    14400 minutes, the caller's dict is given ["redis_key"], and the publish
    then raises [UnboundLocalError] (unless the cache adapter raised
    first), so that nothing is ever published for the entry left in the
    cache. *)
Theorem legacy_publish_offloads_then_fails
    (env : Env) (topic_arn message : string) (attributes : Dict)
    (message_group_id message_deduplication_id : option string) (h : Trace) :
  let run := Legacy.publish_message env topic_arn message attributes h in
  let run_fifo := Legacy.publish_message_fifo env topic_arn message message_group_id
                    message_deduplication_id attributes h in
  Helper.is_large_message message = true ->
  (cache_set_calls (snd run) = [(uuid_uuid4 env h, message, 14400)] /\
   setitem_calls (snd run) = [("redis_key", VUuid (uuid_uuid4 env h))] /\
   dispatches (snd run) = [] /\
   (cache_failures (snd run) = [] ->
    fst run = Raise (UnboundLocalError "message_attributes"))) /\
  (cache_set_calls (snd run_fifo) = [(uuid_uuid4 env h, message, 14400)] /\
   setitem_calls (snd run_fifo) = [("redis_key", VUuid (uuid_uuid4 env h))] /\
   dispatches (snd run_fifo) = [] /\
   (cache_failures (snd run_fifo) = [] ->
    fst run_fifo = Raise (UnboundLocalError "message_attributes"))).
Proof.
  cbn zeta. intros Hlarge.
  split; unfold_publish; rewrite Hlarge; repeat case_step; cbn [fst snd app]; read_more;
    repeat split; intros Hnone; try discriminate Hnone; reflexivity.
Qed.

(** ** The codec, both sides *)

(** [decode('ascii')] succeeds on bytes below 128, character for
    character, and encoding the string again gives the bytes back. *)
Lemma decode_ascii_total (data : list byte) :
  forallb is_ascii_byte data = true ->
  exists s, decode_ascii data = Return s /\
            map byte_of_ascii (list_ascii_of_string s) = data.
Proof.
  induction data as [ | b rest IH]; cbn [forallb decode_ascii].
  - intros _. exists EmptyString. split; reflexivity.
  - intros [Hb Hrest]%andb_prop. destruct (IH Hrest) as (s & Hs & Hback).
    unfold is_ascii_byte in Hb. rewrite Hb, Hs.
    exists (String (ascii_of_byte b) s). split; [ reflexivity | ].
    cbn [list_ascii_of_string map]. rewrite byte_of_ascii_of_byte, Hback. reflexivity.
Qed.

Lemma decode_ascii_inv (data : list byte) (s : string) :
  decode_ascii data = Return s ->
  map byte_of_ascii (list_ascii_of_string s) = data.
Proof.
  revert s. induction data as [ | b rest IH]; cbn [decode_ascii]; intros s.
  - intros [= <-]. reflexivity.
  - destruct (N.ltb (Byte.to_N b) 128); [ | discriminate ].
    destruct (decode_ascii rest) as [s' | e]; [ | discriminate ].
    intros [= <-]. cbn [list_ascii_of_string map].
    rewrite byte_of_ascii_of_byte, (IH s' eq_refl). reflexivity.
Qed.

(** X14.  The two sides of the codec compose to the identity.  Where the
    libraries are inverse to each other on the data at hand (gzip reads
    back what it wrote, base64 decodes what it encoded), [gzip_and_b64]
    followed by [b64_decode_and_gunzip_if] with the flag set returns the
    data, and [b64_encode] followed by [b64_decode_and_gunzip_if] with the
    flag unset returns the data. *)
Theorem codec_round_trip
    (lib : EncoderLib) (env : Env) (data : list byte) (level : Z)
    (compressed : list byte) (h : Trace) :
  gzip_write lib data level = Return compressed ->
  gzip_read env compressed = Return data ->
  forallb is_ascii_byte (base64_b64encode lib compressed) = true ->
  forallb is_ascii_byte (base64_b64encode lib data) = true ->
  (forall bytes s, decode_ascii (base64_b64encode lib bytes) = Return s ->
                   base64_b64decode env s = Return bytes) ->
  (exists encoded,
      Encoder.gzip_and_b64 lib data level = Return encoded /\
      fst (Codec.b64_decode_and_gunzip_if env encoded true h) = Return data) /\
  (exists encoded,
      Encoder.b64_encode lib data = Return encoded /\
      fst (Codec.b64_decode_and_gunzip_if env encoded false h) = Return data).
Proof.
  intros Hwrite Hread Hascii Hascii' Hinv.
  destruct (decode_ascii_total _ Hascii) as (encoded & Henc & _).
  destruct (decode_ascii_total _ Hascii') as (encoded' & Henc' & _).
  split.
  - exists encoded. split.
    + unfold Encoder.gzip_and_b64, Encoder.gzip_compress, Encoder.b64_encode.
      rewrite Hwrite. exact Henc.
    + rewrite (b64_decode_and_gunzip_if_true env encoded h compressed (Hinv _ _ Henc)).
      exact Hread.
  - exists encoded'. split; [ exact Henc' | ].
    unfold Codec.b64_decode_and_gunzip_if. rewrite bind_ret_r.
    unfold Codec.b64_decode, call. cbn [fst]. exact (Hinv _ _ Henc').
Qed.

(** X15.  [gzip_and_b64] fails only where the compression fails.  When the
    encoder yields ASCII bytes for the compressed data, as base64 does, a
    failure of [gzip_and_b64] is the failure of the compression (a bad
    level, say), and after a successful compression the result is the
    encoded bytes, character for character. *)
Theorem gzip_and_b64_fails_only_in_compression
    (lib : EncoderLib) (data : list byte) (level : Z) :
  (forall compressed, gzip_write lib data level = Return compressed ->
                      forallb is_ascii_byte (base64_b64encode lib compressed) = true) ->
  match gzip_write lib data level with
  | Raise e => Encoder.gzip_and_b64 lib data level = Raise e
  | Return compressed =>
      exists s, Encoder.gzip_and_b64 lib data level = Return s /\
                map byte_of_ascii (list_ascii_of_string s) =
                base64_b64encode lib compressed
  end.
Proof.
  intros Hascii. unfold Encoder.gzip_and_b64, Encoder.gzip_compress, Encoder.b64_encode.
  destruct (gzip_write lib data level) as [compressed | e]; [ | reflexivity ].
  apply decode_ascii_total, Hascii. reflexivity.
Qed.

(** ** Topic and queue management *)

Lemma string_length_append (p q : string) :
  String.length (p ++ q) = (String.length p + String.length q)%nat.
Proof.
  induction p as [ | c p IH]; [ reflexivity | ].
  change (String c p ++ q)%string with (String c (p ++ q)).
  cbn [String.length]. rewrite IH. reflexivity.
Qed.

Lemma substring_all (s : string) : substring 0 (String.length s) s = s.
Proof. induction s as [ | c s IH]; cbn; [ | rewrite IH ]; reflexivity. Qed.

Lemma substring_append_r (p q : string) :
  substring (String.length p) (String.length q) (p ++ q) = q.
Proof. induction p as [ | c p IH]; cbn; [ apply substring_all | exact IH ]. Qed.

Lemma substring_split (s : string) (n : nat) :
  (n <= String.length s)%nat ->
  s = (substring 0 n s ++ substring n (String.length s - n) s)%string.
Proof.
  revert n. induction s as [ | c s IH]; intros n Hn.
  - destruct n; [ reflexivity | cbn in Hn; lia ].
  - destruct n as [ | n]; simpl.
    + rewrite substring_all. reflexivity.
    + simpl in Hn.
      change (String c s =
              String c (substring 0 n s ++ substring n (String.length s - n) s)%string).
      f_equal. apply IH. lia.
Qed.

(** [endswith] is Python's: [s] ends with [suffix] exactly when [s] is some
    string followed by [suffix]. *)
Lemma endswith_spec (s suffix : string) :
  endswith s suffix = true <-> exists p, s = (p ++ suffix)%string.
Proof.
  unfold endswith. rewrite andb_true_iff, Nat.leb_le, String.eqb_eq. split.
  - intros [Hlen Hsub].
    exists (substring 0 (String.length s - String.length suffix) s).
    pose proof (substring_split s (String.length s - String.length suffix)) as Hsplit.
    replace (String.length s - (String.length s - String.length suffix))%nat
      with (String.length suffix) in Hsplit by lia.
    rewrite Hsub in Hsplit. apply Hsplit. lia.
  - intros [p ->]. rewrite string_length_append. split; [ lia | ].
    replace (String.length p + String.length suffix - String.length suffix)%nat
      with (String.length p) by lia.
    apply substring_append_r.
Qed.

Lemma endswith_false (s suffix : string) :
  endswith s suffix = false <-> forall p, s <> (p ++ suffix)%string.
Proof.
  split.
  - intros Hno p ->.
    assert (Hyes : endswith (p ++ suffix) suffix = true) by (apply endswith_spec; eauto).
    congruence.
  - intros Hno. destruct (endswith s suffix) eqn:Hends; [ | reflexivity ].
    apply endswith_spec in Hends. destruct Hends as [p ->]. destruct (Hno p eq_refl).
Qed.

(** Unfolds a management function down to the calls of the transport. *)
Ltac unfold_admin :=
  unfold PubsublibAdmin.create_queue, PubsublibAdmin.create_fifo_queue,
    PubsublibAdmin.create_standard_queue, PubsublibAdmin.create_topic_fifo,
    PubsublibAdmin.create_topic, LegacyAdmin.create_queue_fifo,
    LegacyAdmin.create_queue, LegacyAdmin.create_topic_fifo, LegacyAdmin.create_topic,
    admin_try_except_ClientError, admin_bind, call_create_topic, call_create_queue,
    logger_info, logger_error, admin_logger_exception, admin_call, admin_emit,
    admin_eval, admin_ret, admin_raise.

Ltac admin_cases := unfold_admin; repeat case_step; cbn [fst snd app].

Ltac read_admin :=
  cbn [create_topic_calls create_queue_calls admin_exception_logs admin_info_logs
       admin_failures omap list_omap In last fst snd] in *.

(** X16.  A FIFO topic is created only under a name that ends in [.fifo].
    [create_topic_fifo], of either adapter, calls the transport exactly when
    the name is some string followed by [.fifo] (the bare [.fifo] included),
    once, with the attributes of a FIFO topic; for any other name it logs
    one error and returns [None] without raising and without calling the
    transport. *)
Theorem fifo_topic_needs_suffix (env : AdminEnv) (topic_name : string) (h : AdminTrace) :
  ((forall p, topic_name <> (p ++ ".fifo")%string) ->
   PubsublibAdmin.create_topic_fifo env topic_name h =
     (Return None, [AdLogError "FIFO Topic name must end with .fifo!"]) /\
   LegacyAdmin.create_topic_fifo env topic_name h =
     (Return None, [AdLogError "FIFO Topic name must end with .fifo!"])) /\
  ((exists p, topic_name = (p ++ ".fifo")%string) ->
   create_topic_calls (snd (PubsublibAdmin.create_topic_fifo env topic_name h)) =
     [(topic_name, Some fifo_topic_attributes)] /\
   create_topic_calls (snd (LegacyAdmin.create_topic_fifo env topic_name h)) =
     [(topic_name, Some fifo_topic_attributes)]).
Proof.
  split.
  - intros Hno%endswith_false. unfold_admin. rewrite Hno. split; reflexivity.
  - intros Hyes%endswith_spec. unfold_admin. rewrite Hyes.
    split; repeat case_step; reflexivity.
Qed.

(** X17.  A FIFO queue is created only under a name that ends in [.fifo]:
    [__create_fifo_queue], [create_queue] with [is_fifo] set, and the
    legacy [create_queue_fifo] call the transport exactly when the name is
    some string followed by [.fifo], once, with [FifoQueue] set; for any
    other name they log one error and return [None].  [create_queue]
    without [is_fifo] looks at no suffix and passes no attributes. *)
Theorem fifo_queue_needs_suffix (env : AdminEnv) (name : string) (h : AdminTrace) :
  ((forall p, name <> (p ++ ".fifo")%string) ->
   PubsublibAdmin.create_queue env name true h =
     (Return None, [AdLogError "FIFO Queue name must end with .fifo!"]) /\
   LegacyAdmin.create_queue_fifo env name h =
     (Return None, [AdLogError "FIFO Queue name must end with .fifo!"])) /\
  ((exists p, name = (p ++ ".fifo")%string) ->
   create_queue_calls (snd (PubsublibAdmin.create_queue env name true h)) =
     [(name, Some fifo_queue_attributes)] /\
   create_queue_calls (snd (LegacyAdmin.create_queue_fifo env name h)) =
     [(name, Some fifo_queue_attributes)]) /\
  create_queue_calls (snd (PubsublibAdmin.create_queue env name false h)) = [(name, None)] /\
  create_queue_calls (snd (LegacyAdmin.create_queue env name h)) = [(name, None)].
Proof.
  split; [ | split; [ | split ] ].
  - intros Hno%endswith_false. unfold_admin. rewrite Hno. split; reflexivity.
  - intros Hyes%endswith_spec. unfold_admin. rewrite Hyes.
    split; repeat case_step; reflexivity.
  - admin_cases; reflexivity.
  - admin_cases; reflexivity.
Qed.

(** X18.  The creating functions raise a [ClientError] of the transport
    again, after logging it with the name (where the publisher returns
    [None]): when the creation fails with a [ClientError], the function
    ends with it, the log is its last event, and no success is logged. *)
Theorem create_reraises_client_error
    (env : AdminEnv) (name : string) (h : AdminTrace) (op : string) :
  (In (ClientError op) (admin_failures (snd (PubsublibAdmin.create_topic env name h))) ->
   fst (PubsublibAdmin.create_topic env name h) = Raise (ClientError op) /\
   last (snd (PubsublibAdmin.create_topic env name h)) =
     Some (AdLogException "Couldn't create topic %s." name) /\
   admin_info_logs (snd (PubsublibAdmin.create_topic env name h)) = []) /\
  (In (ClientError op) (admin_failures (snd (PubsublibAdmin.create_topic_fifo env name h))) ->
   fst (PubsublibAdmin.create_topic_fifo env name h) = Raise (ClientError op) /\
   last (snd (PubsublibAdmin.create_topic_fifo env name h)) =
     Some (AdLogException "Couldn't create topic with name=%s!" name) /\
   admin_info_logs (snd (PubsublibAdmin.create_topic_fifo env name h)) = []) /\
  (In (ClientError op)
      (admin_failures (snd (PubsublibAdmin.create_queue env name false h))) ->
   fst (PubsublibAdmin.create_queue env name false h) = Raise (ClientError op) /\
   last (snd (PubsublibAdmin.create_queue env name false h)) =
     Some (AdLogException "Couldn't create queue %s." name) /\
   admin_info_logs (snd (PubsublibAdmin.create_queue env name false h)) = []) /\
  (In (ClientError op)
      (admin_failures (snd (PubsublibAdmin.create_queue env name true h))) ->
   fst (PubsublibAdmin.create_queue env name true h) = Raise (ClientError op) /\
   last (snd (PubsublibAdmin.create_queue env name true h)) =
     Some (AdLogException "Couldn't create FIFO queue with name=%s!" name) /\
   admin_info_logs (snd (PubsublibAdmin.create_queue env name true h)) = []).
Proof.
  repeat split; revert H; admin_cases; read_admin; intros Hin;
    repeat (destruct Hin as [Hev | Hin]; [ try discriminate Hev | ]);
    try destruct Hin; try injection Hev as ->; reflexivity.
Qed.

(** X19.  [create_topic] and the creation of a standard queue read an
    attribute of what the transport returned ([topic.arn], [queue.url]) to
    log it.  When the object has no such attribute, as a dict has none, the
    topic or queue has been created on the transport, but the function
    raises the attribute's exception, logs nothing, and does not return
    the object.  [create_topic_fifo] and the creation of a FIFO queue read
    no attribute and return the object. *)
Theorem create_fails_on_missing_attribute
    (env : AdminEnv) (name : string) (h : AdminTrace) (created : PyVal) (e : exn) :
  is_ClientError e = false ->
  (sns_client_create_topic env h name None = Return created ->
   getattr env created "arn" = Raise e ->
   PubsublibAdmin.create_topic env name h =
     (Raise e, [AdCreateTopic name None (Return created)]) /\
   LegacyAdmin.create_topic env name h =
     (Raise e, [AdCreateTopic name None (Return created)])) /\
  (sqs_client_create_queue env h name None = Return created ->
   getattr env created "url" = Raise e ->
   PubsublibAdmin.create_queue env name false h =
     (Raise e, [AdCreateQueue name None (Return created)]) /\
   LegacyAdmin.create_queue env name h =
     (Raise e, [AdCreateQueue name None (Return created)])) /\
  (endswith name ".fifo" = true ->
   sns_client_create_topic env h name (Some fifo_topic_attributes) = Return created ->
   fst (PubsublibAdmin.create_topic_fifo env name h) = Return (Some created)) /\
  (endswith name ".fifo" = true ->
   sqs_client_create_queue env h name (Some fifo_queue_attributes) = Return created ->
   fst (PubsublibAdmin.create_queue env name true h) = Return (Some created)).
Proof.
  intros Hne. repeat split; intros; unfold_admin;
    repeat match goal with H : _ = _ |- _ => rewrite H end;
    destruct e; try discriminate Hne; reflexivity.
Qed.

(** Any exception of the transport ends a poll. *)
Section TransportFailuresInPoll.
Context (env : Env) (sqs_queue_url : string) (handler : Handler).
Context (visibility_timeout wait_time_seconds : Z)
        (message_attribute_names : list string)
        (max_number_of_messages : Z)
        (attribute_names : list string).

Local Abbreviation args :=
  (receive_args sqs_queue_url visibility_timeout wait_time_seconds
     message_attribute_names max_number_of_messages attribute_names).
Local Abbreviation poll :=
  (Pubsublib.poll_message_from_queue env sqs_queue_url handler
     visibility_timeout wait_time_seconds message_attribute_names
     max_number_of_messages attribute_names).
Local Abbreviation legacy_poll :=
  (Legacy.poll_message_from_queue env sqs_queue_url handler
     visibility_timeout wait_time_seconds message_attribute_names
     max_number_of_messages attribute_names).

(** X20.  An exception of the transport, of any class, ends the poll with
    that exception, in either adapter: a failed receive, and a failed
    delete after a successful handler, are never passed over. *)
Theorem poll_propagates_transport_failure (h : Trace) (e : exn) :
  (In e (transport_failures (snd (poll h))) -> fst (poll h) = Raise e) /\
  (In e (transport_failures (snd (legacy_poll h))) -> fst (legacy_poll h) = Raise e).
Proof.
  split.
  - pose proof (for_each_message_transport_failure env sqs_queue_url handler) as Hloop.
    rewrite (poll_message_from_queue_run env sqs_queue_url handler). cbn zeta.
    destruct (sqs_client_receive_message env h args) as [resp | exc] eqn:Hrecv.
    + destruct (Messages resp) as [messages | ]; [ | intros [] ].
      specialize (Hloop messages (h ++ [EvReceive args (Return resp)]) e).
      destruct (Pubsublib.for_each_message env sqs_queue_url handler messages _)
        as [[[] | exc] tr]; [ | destruct exc ]; cbn [fst snd] in *;
        rewrite ?app_comm_cons, ?transport_failures_app;
        unfold transport_failures at 1; cbn [omap list_omap app];
        fold (transport_failures tr); rewrite ?app_nil_r;
        intros Hin; specialize (Hloop Hin); try discriminate Hloop;
        injection Hloop as <-; reflexivity.
    + destruct exc; cbn [fst snd transport_failures omap list_omap In];
        intros [<- | []]; reflexivity.
  - pose proof (legacy_for_each_message_failure env sqs_queue_url handler) as Hloop.
    rewrite (legacy_poll_message_from_queue_run env sqs_queue_url handler). cbn zeta.
    destruct (sqs_client_receive_message env h args) as [resp | exc] eqn:Hrecv.
    + destruct (Messages resp) as [messages | ]; [ | intros [] ].
      specialize (Hloop messages None (h ++ [EvReceive args (Return resp)]) e).
      destruct (Legacy.for_each_message env sqs_queue_url handler messages None _)
        as [[[m | ] | exc] tr]; cbn [fst snd] in *;
        intros Hin; specialize (Hloop (or_intror Hin)); try discriminate Hloop;
        injection Hloop as <-; reflexivity.
    + cbn [fst snd transport_failures omap list_omap In]. intros [<- | []]. reflexivity.
Qed.

End TransportFailuresInPoll.

(** ** Instances of the further properties *)

Lemma poll_handles_in_receipt_order_witness :
  handler_calls (snd (Pubsublib.poll_message_from_queue_default env_batch "url" handler_ok []))
    = [sample_message "1" "a"] /\
  handler_calls (snd (Pubsublib.poll_message_from_queue_default env_batch "url" handler_ok []))
    `prefix_of` sample_batch /\
  handler_calls (snd (Legacy.poll_message_from_queue_default env_batch "url" handler_ok []))
    `prefix_of` sample_batch.
Proof.
  destruct (poll_handles_in_receipt_order env_batch "url" handler_ok 15 20 ["All"] 10
              ["All"] [] {| Messages := Some sample_batch |} sample_batch eq_refl eq_refl)
    as [Hcurrent _].
  destruct (poll_handles_in_receipt_order env_batch "url" handler_ok 20 0 ["All"] 10
              ["All"] [] {| Messages := Some sample_batch |} sample_batch eq_refl eq_refl)
    as [_ Hlegacy].
  split; [ reflexivity | split; [ exact Hcurrent | exact Hlegacy ] ].
Defined.

Lemma poll_propagates_handler_exception_witness :
  fst (Pubsublib.poll_message_from_queue_default env_one "url" handler_raises []) =
    Raise handler_error /\
  fst (Legacy.poll_message_from_queue_default env_one "url" handler_raises []) =
    Raise handler_error.
Proof.
  split.
  - apply (proj1 (poll_propagates_handler_exception env_one "url" handler_raises 15 20
                    ["All"] 10 ["All"] [] handler_error)).
    left. reflexivity.
  - apply (proj2 (poll_propagates_handler_exception env_one "url" handler_raises 20 0
                    ["All"] 10 ["All"] [] handler_error)).
    left. reflexivity.
Defined.

Lemma poll_propagates_transport_failure_witness :
  fst (Pubsublib.poll_message_from_queue_default env_receive_fails "url" handler_ok []) =
    Raise (ClientError "ReceiveMessage") /\
  fst (Legacy.poll_message_from_queue_default env_receive_fails "url" handler_ok []) =
    Raise (ClientError "ReceiveMessage").
Proof.
  split.
  - apply (proj1 (poll_propagates_transport_failure env_receive_fails "url" handler_ok 15 20
                    ["All"] 10 ["All"] [] (ClientError "ReceiveMessage"))).
    left. reflexivity.
  - apply (proj2 (poll_propagates_transport_failure env_receive_fails "url" handler_ok 20 0
                    ["All"] 10 ["All"] [] (ClientError "ReceiveMessage"))).
    left. reflexivity.
Defined.

Lemma poll_returns_the_response_witness :
  fst (Pubsublib.poll_message_from_queue_default env_two "url" handler_ko []) =
    received_batch [sample_message "1" "a"; sample_message "3" "c"] /\
  handler_failures
    (snd (Pubsublib.poll_message_from_queue_default env_two "url" handler_ko [])) = [] /\
  transport_failures
    (snd (Pubsublib.poll_message_from_queue_default env_two "url" handler_ko [])) = [].
Proof.
  destruct (poll_returns_the_response env_two "url" handler_ko 15 20 ["All"] 10 ["All"] []
              {| Messages := Some [sample_message "1" "a"; sample_message "3" "c"] |}
              eq_refl) as (_ & Hh & Ht & _).
  split; [ reflexivity | split; [ exact Hh | exact Ht ] ].
Defined.

Lemma legacy_poll_returns_last_message_witness :
  fst (Legacy.poll_message_from_queue_default env_two "url" handler_ok []) =
    Return (sample_message "3" "c") /\
  exists resp messages,
    sqs_client_receive_message env_two [] legacy_default_args = Return resp /\
    Messages resp = Some messages /\
    last messages = Some (sample_message "3" "c") /\
    handler_calls (snd (Legacy.poll_message_from_queue_default env_two "url" handler_ok []))
      = messages.
Proof.
  split; [ reflexivity | ].
  apply (legacy_poll_returns_last_message env_two "url" handler_ok 20 0 ["All"] 10 ["All"] []
           (sample_message "3" "c")).
  reflexivity.
Defined.

Lemma publish_dispatches_at_most_once_witness :
  fst fifo_publish_without_ids = Return (Some "mid-1") /\
  published_ids (snd fifo_publish_without_ids) = ["mid-1"] /\
  length (dispatches (snd fifo_publish_without_ids)) = 1%nat.
Proof.
  split; [ reflexivity | ].
  apply (proj2 (publish_dispatches_at_most_once env_nothing
                  "arn:aws:sns:ap-south-1:1:orders.fifo" "hello" ∅ true None None [])
           "mid-1").
  reflexivity.
Defined.

Lemma publish_returns_none_exactly_on_client_error_witness :
  fst publish_on_failing_transport = Return None /\
  exists op, In (ClientError op) (collaborator_failures (snd publish_on_failing_transport)).
Proof.
  split; [ reflexivity | ].
  apply (proj1 (publish_returns_none_exactly_on_client_error env_publish_fails
                  "arn:aws:sns:ap-south-1:1:orders" "hello" ∅ false None None [])).
  reflexivity.
Defined.

Lemma publish_of_invalid_attributes_raises_witness :
  In (Return false)
     (validate_answers
        (snd (Pubsublib.publish_message env_invalid "arn" "hello" ∅ false None None []))) /\
  fst (Pubsublib.publish_message env_invalid "arn" "hello" ∅ false None None []) =
    Raise (UnboundLocalError "message_id").
Proof.
  assert (Hin : In (Return false)
                  (validate_answers
                     (snd (Pubsublib.publish_message env_invalid "arn" "hello" ∅ false
                             None None []))))
    by (left; reflexivity).
  split; [ exact Hin | ].
  apply (publish_of_invalid_attributes_raises env_invalid "arn" "hello" ∅ false None None []
           Hin).
Defined.

Lemma publish_stops_when_cache_fails_witness :
  Helper.is_large_message body_200KB_plus_1 = true /\
  fst (Pubsublib.publish_message env_cache_fails "arn" body_200KB_plus_1 ∅ false None None [])
    = Raise cache_unreachable /\
  setitem_calls
    (snd (Pubsublib.publish_message env_cache_fails "arn" body_200KB_plus_1 ∅ false
            None None []))
    = [("redis_key", VUuid 7%N)].
Proof.
  assert (Hlarge : Helper.is_large_message body_200KB_plus_1 = true)
    by (vm_compute; reflexivity).
  split; [ exact Hlarge | ].
  revert Hlarge. generalize body_200KB_plus_1. intros body Hlarge.
  assert (Hin : In cache_unreachable
                  (cache_failures
                     (snd (Pubsublib.publish_message env_cache_fails "arn" body ∅ false
                             None None [])))).
  { unfold_publish. rewrite Hlarge. left. reflexivity. }
  destruct (publish_stops_when_cache_fails env_cache_fails "arn" body ∅ false None None []
              cache_unreachable Hin) as (Hset & _ & _ & Hfst).
  split; [ exact Hfst | exact Hset ].
Defined.

Lemma large_body_dispatched_only_if_stored_witness :
  Helper.is_large_message body_200KB_plus_1 = true /\
  In (EvCacheSet 7%N body_200KB_plus_1 14400 (Return tt))
     (snd (Pubsublib.publish_message env_nothing "arn" body_200KB_plus_1 ∅ false
             None None [])).
Proof.
  assert (Hlarge : Helper.is_large_message body_200KB_plus_1 = true)
    by (vm_compute; reflexivity).
  split; [ exact Hlarge | ].
  revert Hlarge. generalize body_200KB_plus_1. intros body Hlarge.
  apply (large_body_dispatched_only_if_stored env_nothing "arn" body ∅ false None None []
           Hlarge).
  unfold_publish. rewrite Hlarge. discriminate.
Defined.

Lemma offload_changes_only_redis_key_witness :
  Helper.is_large_message body_200KB_plus_1 = true /\
  validate_calls
    (snd (Pubsublib.publish_message env_nothing "arn" body_200KB_plus_1 attributes_with_key
            false None None []))
    = [<["redis_key" := VUuid 7%N]> attributes_with_key] /\
  (<["redis_key" := VUuid 7%N]> attributes_with_key : Dict) !! "redis_key"
    = Some (VUuid 7%N) /\
  (<["redis_key" := VUuid 7%N]> attributes_with_key : Dict) !! "kind"
    = Some (VStr "order").
Proof.
  assert (Hlarge : Helper.is_large_message body_200KB_plus_1 = true)
    by (vm_compute; reflexivity).
  split; [ exact Hlarge | ].
  revert Hlarge. generalize body_200KB_plus_1. intros body Hlarge.
  assert (Hcalls : validate_calls
                     (snd (Pubsublib.publish_message env_nothing "arn" body
                             attributes_with_key false None None []))
                   = [<["redis_key" := VUuid 7%N]> attributes_with_key]).
  { unfold_publish. rewrite Hlarge. reflexivity. }
  split; [ exact Hcalls | ].
  pose proof (offload_changes_only_redis_key env_nothing "arn" body attributes_with_key
                false None None [] (<["redis_key" := VUuid 7%N]> attributes_with_key))
    as Hkeys.
  rewrite Hcalls, Hlarge in Hkeys. destruct (Hkeys (or_introl eq_refl)) as [Hkey Hrest].
  split; [ exact Hkey | ].
  rewrite (Hrest "kind") by discriminate. reflexivity.
Defined.

Lemma legacy_publish_offloads_then_fails_witness :
  Helper.is_large_message body_200KB_plus_1 = true /\
  cache_set_calls
    (snd (Legacy.publish_message env_nothing "arn" body_200KB_plus_1 ∅ []))
    = [(7%N, body_200KB_plus_1, 14400)] /\
  fst (Legacy.publish_message env_nothing "arn" body_200KB_plus_1 ∅ []) =
    Raise (UnboundLocalError "message_attributes").
Proof.
  assert (Hlarge : Helper.is_large_message body_200KB_plus_1 = true)
    by (vm_compute; reflexivity).
  split; [ exact Hlarge | ].
  revert Hlarge. generalize body_200KB_plus_1. intros body Hlarge.
  destruct (legacy_publish_offloads_then_fails env_nothing "arn" body ∅ None None []
              Hlarge) as ((Hset & _ & _ & Hfst) & _).
  split; [ exact Hset | ].
  apply Hfst. unfold_publish. rewrite Hlarge. reflexivity.
Defined.

Lemma codec_round_trip_witness :
  Encoder.gzip_and_b64 sample_lib [x68; x69] 9 = Return (String "031" "hi") /\
  fst (Codec.b64_decode_and_gunzip_if sample_codec_env (String "031" "hi") true []) =
    Return [x68; x69] /\
  exists encoded,
    Encoder.b64_encode sample_lib [x68; x69] = Return encoded /\
    fst (Codec.b64_decode_and_gunzip_if sample_codec_env encoded false []) =
      Return [x68; x69].
Proof.
  assert (Hinv : forall bytes s,
             decode_ascii (base64_b64encode sample_lib bytes) = Return s ->
             base64_b64decode sample_codec_env s = Return bytes).
  { intros bytes s Hs. cbn [base64_b64decode sample_codec_env].
    f_equal. apply decode_ascii_inv. exact Hs. }
  split; [ reflexivity | split; [ reflexivity | ] ].
  apply (proj2 (codec_round_trip sample_lib sample_codec_env [x68; x69] 9 [x1f; x68; x69] []
                  eq_refl eq_refl eq_refl eq_refl Hinv)).
Defined.

Lemma gzip_and_b64_fails_only_in_compression_witness :
  Encoder.gzip_and_b64 sample_lib [x68; x69] 10 = Raise (ValueError "Bad compression level") /\
  exists s, Encoder.gzip_and_b64_default sample_lib [x68; x69] = Return s /\
            map byte_of_ascii (list_ascii_of_string s) = [x1f; x68; x69].
Proof.
  split.
  - apply (gzip_and_b64_fails_only_in_compression sample_lib [x68; x69] 10).
    intros compressed [=].
  - apply (gzip_and_b64_fails_only_in_compression sample_lib [x68; x69] 9).
    intros compressed [= <-]. reflexivity.
Defined.

Lemma fifo_topic_needs_suffix_witness :
  PubsublibAdmin.create_topic_fifo sample_admin_env "orders" [] =
    (Return None, [AdLogError "FIFO Topic name must end with .fifo!"]) /\
  create_topic_calls (snd (PubsublibAdmin.create_topic_fifo sample_admin_env "orders.fifo" []))
    = [("orders.fifo", Some fifo_topic_attributes)] /\
  create_topic_calls (snd (PubsublibAdmin.create_topic_fifo sample_admin_env ".fifo" []))
    = [(".fifo", Some fifo_topic_attributes)].
Proof.
  split; [ | split ].
  - apply (proj1 (fifo_topic_needs_suffix sample_admin_env "orders" [])).
    apply endswith_false. reflexivity.
  - apply (proj2 (fifo_topic_needs_suffix sample_admin_env "orders.fifo" [])).
    exists "orders". reflexivity.
  - apply (proj2 (fifo_topic_needs_suffix sample_admin_env ".fifo" [])).
    exists "". reflexivity.
Defined.

Lemma fifo_queue_needs_suffix_witness :
  PubsublibAdmin.create_queue sample_admin_env "orders.fifo.dlq" true [] =
    (Return None, [AdLogError "FIFO Queue name must end with .fifo!"]) /\
  create_queue_calls (snd (LegacyAdmin.create_queue_fifo sample_admin_env "orders.fifo" []))
    = [("orders.fifo", Some fifo_queue_attributes)].
Proof.
  split.
  - apply (proj1 (fifo_queue_needs_suffix sample_admin_env "orders.fifo.dlq" [])).
    apply endswith_false. reflexivity.
  - apply (proj1 (proj2 (fifo_queue_needs_suffix sample_admin_env "orders.fifo" []))).
    exists "orders". reflexivity.
Defined.

Lemma create_reraises_client_error_witness :
  fst (PubsublibAdmin.create_topic failing_admin_env "orders" []) =
    Raise (ClientError "CreateTopic") /\
  last (snd (PubsublibAdmin.create_queue failing_admin_env "orders.fifo" true [])) =
    Some (AdLogException "Couldn't create FIFO queue with name=%s!" "orders.fifo").
Proof.
  split.
  - apply (proj1 (create_reraises_client_error failing_admin_env "orders" [] "CreateTopic")).
    left. reflexivity.
  - apply (proj2 (proj2 (proj2 (create_reraises_client_error failing_admin_env "orders.fifo"
                                  [] "CreateQueue")))).
    left. reflexivity.
Defined.

Lemma create_fails_on_missing_attribute_witness :
  PubsublibAdmin.create_topic sample_admin_env "orders" [] =
    (Raise (PyException "AttributeError" "'dict' object has no attribute 'arn'"),
     [AdCreateTopic "orders" None
        (Return (VDict [("TopicArn", VStr "arn:aws:sns:ap-south-1:1:orders")]))]) /\
  PubsublibAdmin.create_queue sample_admin_env "orders" false [] =
    (Raise (PyException "AttributeError" "'dict' object has no attribute 'url'"),
     [AdCreateQueue "orders" None
        (Return (VDict [("QueueUrl", VStr "https://sqs/1/orders")]))]).
Proof.
  split.
  - apply (proj1 (create_fails_on_missing_attribute sample_admin_env "orders" []
                    (VDict [("TopicArn", VStr "arn:aws:sns:ap-south-1:1:orders")])
                    (PyException "AttributeError" "'dict' object has no attribute 'arn'")
                    eq_refl));
      reflexivity.
  - apply (proj1 (proj2 (create_fails_on_missing_attribute sample_admin_env "orders" []
                    (VDict [("QueueUrl", VStr "https://sqs/1/orders")])
                    (PyException "AttributeError" "'dict' object has no attribute 'url'")
                    eq_refl)));
      reflexivity.
Defined.
